(** * Coupang crawler: checkpointing, block detection, extraction, validation

  A shallow embedding of [crawler.py] (the crawl orchestration and
  resilience engine) together with the properties its specification
  states about it.

  Modelling conventions.
  - Text is a byte string ([string]); [str.lower] is modelled on the ASCII
    letters, which is all the configured patterns contain besides Hangul.
  - A Python [dict] with string keys is a [gmap string _].
  - A pandas [DataFrame] is the set of its column labels plus its rows; a
    row is a dict from column name to cell, a column that is missing in a
    row reads as NaN.  The order of the columns is not modelled.
  - The file system is a finite map from paths to documents; an [.xlsx]
    document is the workbook cell by cell as it was written, and reading it
    with [pd.read_excel] turns an empty cell and a text that pandas takes
    for a missing value (the crawler's "NA" among them) into NaN; the
    checkpoint document is the status record [save_status] dumps.  Numbers
    are held by their value.  Log files and the HTML dumps of blocked pages
    are left out, and writes are taken to succeed.
  - The browser is an oracle: each page visit supplies what the calls made
    on it return, or that they raise.  Sleeps and log lines are not
    modelled; the advisory [wait_for_selector] has no effect on the
    results and is left out. *)

From Stdlib Require Import ZArith Lia Bool Ascii String.
From stdpp Require Import gmap strings list fin_maps pretty.

Open Scope string_scope.

(* ===================================================================== *)
(** ** Text *)
(* ===================================================================== *)

Module Text.

(** [c.lower()] on one byte: the ASCII capitals move down by 32. *)
Definition lower_ascii (c : ascii) : ascii :=
  let n := Ascii.nat_of_ascii c in
  if (65 <=? n)%nat && (n <=? 90)%nat then Ascii.ascii_of_nat (n + 32) else c.

Fixpoint lower (s : string) : string :=
  match s with
  | EmptyString => EmptyString
  | String c s' => String (lower_ascii c) (lower s')
  end.

(** [s.startswith(p)] *)
Fixpoint startswith (p s : string) : bool :=
  match p, s with
  | EmptyString, _ => true
  | String _ _, EmptyString => false
  | String a p', String b s' => if Ascii.eqb a b then startswith p' s' else false
  end.

(** [p in s] *)
Fixpoint contains (p s : string) : bool :=
  startswith p s ||
  match s with
  | EmptyString => false
  | String _ s' => contains p s'
  end.

(** [s.replace(old, new)]: every non-overlapping occurrence, left to right.
    [skip] counts the bytes of a match that are still to be dropped. *)
Fixpoint replace_from (skip : nat) (old new s : string) : string :=
  match s with
  | EmptyString => EmptyString
  | String c s' =>
      match skip with
      | S k => replace_from k old new s'
      | O =>
          if startswith old s
          then new +:+ replace_from (String.length old - 1) old new s'
          else String c (replace_from 0 old new s')
      end
  end.

Definition replace (old new s : string) : string :=
  match old with
  | EmptyString => s
  | _ => replace_from 0 old new s
  end.

End Text.

(* ===================================================================== *)
(** ** The browser seen from the crawler *)
(* ===================================================================== *)

Module Browser.

(** The navigation response: only its status is read. *)
Record response := Response { status : Z }.

(** [response.ok]: a 2xx status. *)
Definition ok (r : response) : bool :=
  (200 <=? status r)%Z && (status r <=? 299)%Z.

(** What the page answers when it is inspected.  [None] is a raised
    exception. *)
Record page := Page {
  content : option string;                   (* page.content() *)
  locator_count : string -> option nat;      (* page.locator(sel).count() *)
  title : option string                      (* page.title() *)
}.

(** [selectors.json]: a list of selectors per field. *)
Abbreviation selectors_config := (gmap string (list string)).

(** [self.selectors.get(key, default)] *)
Definition get_selectors (cfg : selectors_config) (key : string)
    (default : list string) : list string :=
  match cfg !! key with
  | Some l => l
  | None => default
  end.

End Browser.

(* ===================================================================== *)
(** ** DataExtractor.detect_block *)
(* ===================================================================== *)

Module BlockDetect.
Import Browser.

Definition block_status_codes : list Z := [403; 429; 503]%Z.

Definition block_patterns : list string :=
  [ "access denied";
    "액세스가 차단되었습니다";
    "비정상적인 접근";
    "차단되었습니다";
    "권한이 없습니다";
    "서비스 이용에 불편을 드려";
    "비정상적인 트래픽" ].

Definition default_block_indicators : list string :=
  [ "#contents"; ".prod-buy-header"; ".prod-price"; ".prod-sale-price" ].

Definition suspicious_title_words : list string :=
  [ "로봇"; "차단"; "접근 제한" ].

(** [response and response.status in [403, 429, 503]] *)
Definition status_blocked (resp : option response) : bool :=
  match resp with
  | Some r => bool_decide (status r ∈ block_status_codes)
  | None => false
  end.

(** [pattern.lower() in html_content.lower()] for some pattern *)
Definition pattern_found (html : string) : bool :=
  existsb (fun pattern => Text.contains (Text.lower pattern) (Text.lower html))
          block_patterns.

(** One turn of the counting loop: the selector counts as missing when it
    matches nothing, and also when counting it raises (the bare [except]). *)
Definition selector_missing (pg : page) (selector : string) : bool :=
  match locator_count pg selector with
  | Some O => true
  | Some (S _) => false
  | None => true
  end.

Definition missing_elements (pg : page) (selectors : list string) : nat :=
  length (filter (fun s => selector_missing pg s = true) selectors).

(** [missing_elements >= len(selectors) / 2] with Python's true division:
    an integer [m] is at least [n / 2] exactly when [n <= 2 * m]. *)
Definition half_missing (pg : page) (selectors : list string) : bool :=
  (length selectors <=? 2 * missing_elements pg selectors)%nat.

(** ["로봇" in title or "차단" in title or "접근 제한" in title] *)
Definition title_suspicious (t : string) : bool :=
  existsb (fun w => Text.contains w t) suspicious_title_words.

Definition detect_block (cfg : selectors_config) (pg : page)
    (resp : option response) : bool :=
  if status_blocked resp then true
  else
    match content pg with
    | None => false                                  (* except Exception *)
    | Some html =>
        if pattern_found html then true
        else
          let selectors :=
            get_selectors cfg "block_indicators" default_block_indicators in
          if half_missing pg selectors then true
          else
            match title pg with
            | Some t => title_suspicious t
            | None => false                          (* except: pass *)
            end
    end.

(** *** The four signals, as the specification words them *)

Definition block_indicators (cfg : selectors_config) : list string :=
  get_selectors cfg "block_indicators" default_block_indicators.

Definition status_signal (resp : option response) : Prop :=
  exists r, resp = Some r /\ (status r = 403 \/ status r = 429 \/ status r = 503)%Z.

Definition text_signal (pg : page) : Prop :=
  exists html pattern,
    content pg = Some html /\ pattern ∈ block_patterns /\
    Text.contains (Text.lower pattern) (Text.lower html) = true.

Definition selector_signal (cfg : selectors_config) (pg : page) : Prop :=
  (length (block_indicators cfg) <= 2 * missing_elements pg (block_indicators cfg))%nat.

Definition title_signal (pg : page) : Prop :=
  exists t w,
    title pg = Some t /\ w ∈ suspicious_title_words /\ Text.contains w t = true.

(** The verdict the specification gives: any one signal suffices. *)
Definition any_signal (cfg : selectors_config) (pg : page)
    (resp : option response) : Prop :=
  status_signal resp \/ text_signal pg \/ selector_signal cfg pg \/ title_signal pg.

(** *** Which inspection step raises in a call of [detect_block] *)

(** [page.content()] is called, and raises. *)
Definition content_raises (pg : page) (resp : option response) : Prop :=
  status_blocked resp = false /\ content pg = None.

(** The counting loop is reached, and [count()] raises for a selector. *)
Definition count_raises (cfg : selectors_config) (pg : page)
    (resp : option response) : Prop :=
  status_blocked resp = false /\
  (exists html, content pg = Some html /\ pattern_found html = false) /\
  exists s, s ∈ block_indicators cfg /\ locator_count pg s = None.

(** [page.title()] is called, and raises. *)
Definition title_raises (cfg : selectors_config) (pg : page)
    (resp : option response) : Prop :=
  status_blocked resp = false /\
  (exists html, content pg = Some html /\ pattern_found html = false) /\
  half_missing pg (block_indicators cfg) = false /\
  title pg = None.

Definition inspection_raises (cfg : selectors_config) (pg : page)
    (resp : option response) : Prop :=
  content_raises pg resp \/ count_raises cfg pg resp \/ title_raises cfg pg resp.

End BlockDetect.

(* ===================================================================== *)
(** ** Dicts, cells and dataframes *)
(* ===================================================================== *)

Module Frame.

(** A value held by a dict entry or a dataframe cell. *)
Inductive cell :=
| CNone                 (* None *)
| CNaN                  (* float('nan'), a missing cell *)
| CInt (n : Z)
| CStr (s : string).

#[global] Instance cell_eq_dec : EqDecision cell.
Proof. solve_decision. Defined.

(** A result record ([product_data], [error_data]) and a dataframe row. *)
Abbreviation pydict := (gmap string cell).

(** [value is None] *)
Definition is_none (c : cell) : bool :=
  match c with CNone => true | _ => false end.

(** [Series.notna()] on one cell *)
Definition notna (c : cell) : bool :=
  match c with CNone | CNaN => false | _ => true end.

(** Elementwise [==] of a column against a scalar: a null never compares
    equal. *)
Definition cell_eqb (a b : cell) : bool :=
  match a, b with
  | CInt x, CInt y => (x =? y)%Z
  | CStr x, CStr y => String.eqb x y
  | _, _ => false
  end.

(** [d.setdefault(key, value)] *)
Definition setdefault (key : string) (value : cell) (d : pydict) : pydict :=
  match d !! key with
  | Some _ => d
  | None => <[key := value]> d
  end.

(** A dataframe: its column labels and its rows.  The labels are held as a
    set: the code only tests a label for presence ([col in df.columns]) and
    reads or writes cells by label, and the order pandas gives the columns
    (that of the first insertion of each key) is not modelled. *)
Record DataFrame := mkDataFrame {
  columns : gset string;
  rows : list pydict
}.

(** [row[col]]: a column the row does not fill reads as NaN. *)
Definition at_col (r : pydict) (col : string) : cell :=
  match r !! col with
  | Some c => c
  | None => CNaN
  end.

(** [col in df.columns] *)
Definition has_column (df : DataFrame) (col : string) : bool :=
  bool_decide (col ∈ columns df).

(** [df[col]] as the list of its cells *)
Definition series (df : DataFrame) (col : string) : list cell :=
  map (fun r => at_col r col) (rows df).

(** [mask_a | mask_b] *)
Definition mask_or (a b : list bool) : list bool :=
  zip_with orb a b.

(** [mask.any()] *)
Definition mask_any (mask : list bool) : bool :=
  existsb (fun b => b) mask.

(** [df[mask]]: the rows whose mask entry is true. *)
Fixpoint select_rows (mask : list bool) (rs : list pydict) : list pydict :=
  match mask, rs with
  | m :: mask', r :: rs' =>
      if m then r :: select_rows mask' rs' else select_rows mask' rs'
  | _, _ => []
  end.

Definition select (df : DataFrame) (mask : list bool) : DataFrame :=
  {| columns := columns df; rows := select_rows mask (rows df) |}.

(** [pd.DataFrame()] *)
Definition empty_frame : DataFrame :=
  {| columns := ∅; rows := [] |}.

(** [df.loc[mask, col] = value] for a column the frame has. *)
Definition loc_set (mask : list bool) (col : string) (value : cell)
    (df : DataFrame) : DataFrame :=
  {| columns := columns df;
     rows := zip_with (fun (m : bool) r => if m then <[col := value]> r else r)
                      mask (rows df) |}.

(** [pd.DataFrame(records)]: the columns are the keys that occur in some
    record. *)
Definition from_records (records : list pydict) : DataFrame :=
  {| columns := ⋃ (dom <$> records);
     rows := records |}.

(** [pd.concat([a, b], ignore_index=True)]: the columns of either frame. *)
Definition concat_frames (a b : DataFrame) : DataFrame :=
  {| columns := columns a ∪ columns b;
     rows := (rows a ++ rows b)%list |}.

(** [row.to_dict()]: one entry per column of the frame. *)
Definition to_dict (cols : gset string) (r : pydict) : pydict :=
  set_to_map (fun c => (c, at_col r c)) cols.

(** *** What [pd.read_excel] makes of a workbook *)

(** The texts [pd.read_excel] reads as a missing value when it is called
    without [na_values] and [keep_default_na], as the code calls it. *)
Definition na_values : list string :=
  [ ""; "#N/A"; "#N/A N/A"; "#NA"; "-1.#IND"; "-1.#QNAN"; "-NaN"; "-nan";
    "1.#IND"; "1.#QNAN"; "<NA>"; "N/A"; "NA"; "NULL"; "NaN"; "None"; "n/a";
    "nan"; "null" ].

(** A cell as it is read: an empty cell (a [None] or a NaN was written) and
    a text among [na_values] both read as NaN. *)
Definition read_cell (c : cell) : cell :=
  match c with
  | CNone => CNaN
  | CStr s => if bool_decide (s ∈ na_values) then CNaN else CStr s
  | _ => c
  end.

Definition read_row (r : pydict) : pydict := read_cell <$> r.

Definition read_frame (df : DataFrame) : DataFrame :=
  {| columns := columns df; rows := read_row <$> rows df |}.

(** Python's slice bounds on a sequence of length [n]. *)
Definition slice_bound (n i : Z) : Z :=
  if (i <? 0)%Z then Z.max 0 (n + i) else Z.min i n.

(** [l[start:stop]] *)
Definition slice {A} (l : list A) (start stop : Z) : list A :=
  let n := Z.of_nat (length l) in
  let lo := slice_bound n start in
  let hi := slice_bound n stop in
  take (Z.to_nat (hi - lo)) (drop (Z.to_nat lo) l).

End Frame.

(* ===================================================================== *)
(** ** The checkpoint store (ConfigManager.save_status / load_status) *)
(* ===================================================================== *)

Module Checkpoint.
Import Frame.

(** The JSON document [save_status] dumps. *)
Record crawler_status := mkStatus {
  file_path : string;
  last_batch : Z;
  last_index : Z;
  blocked_url_idx : option Z;
  timestamp : string
}.

#[global] Instance crawler_status_eq_dec : EqDecision crawler_status.
Proof. solve_decision. Defined.

Inductive document :=
| DocStatus (s : crawler_status)          (* a checkpoint document *)
| DocFrame (df : DataFrame).      (* an .xlsx workbook, cell by cell as written *)

Abbreviation filesystem := (gmap string document).

(** Where and when the process runs. *)
Record environment := mkEnvironment {
  base_dir : string;     (* the directory of crawler.py *)
  cwd : string;          (* the working directory *)
  today : string;        (* the module-level date stamp *)
  now : string;          (* datetime.now() as "%Y-%m-%d %H:%M:%S" *)
  now_date : string;     (* datetime.now() as "%Y-%m-%d" *)
  now_stamp : string     (* datetime.now() as "%Y%m%d_%H%M%S" *)
}.

Definition STATUS_FILE : string := "crawler_status.json".

(** [os.path.join(a, b)] for a relative [b] *)
Definition path_join (a b : string) : string := a +:+ "/" +:+ b.

(** The file a path names: a relative path is taken from the working
    directory. *)
Definition resolve (env : environment) (p : string) : string :=
  if Text.startswith "/" p then p else path_join (cwd env) p.

(** [self.status_path = os.path.join(self.base_dir, "config", STATUS_FILE)] *)
Definition status_path (env : environment) : string :=
  path_join (path_join (base_dir env) "config") STATUS_FILE.

(** [os.path.exists(p)] *)
Definition exists_file (env : environment) (fs : filesystem) (p : string) : bool :=
  bool_decide (is_Some (fs !! resolve env p)).

Definition save_status (env : environment) (fs : filesystem)
    (xlsx : string) (batch_idx overall_idx : Z) (blocked : option Z)
    : crawler_status * filesystem :=
  let st := {| file_path := xlsx;
               last_batch := batch_idx;
               last_index := overall_idx;
               blocked_url_idx := blocked;
               timestamp := now env |} in
  (st, <[resolve env (status_path env) := DocStatus st]> fs).

Definition load_status (env : environment) (fs : filesystem)
    : option crawler_status :=
  match fs !! resolve env (status_path env) with
  | Some (DocStatus st) => Some st
  | _ => None
  end.

(** [pd.read_excel(p)]: the workbook at the path, its cells as pandas reads
    them; [None] when the path holds no workbook (the call raises). *)
Definition read_excel (env : environment) (fs : filesystem) (p : string)
    : option DataFrame :=
  match fs !! resolve env p with
  | Some (DocFrame df) => Some (read_frame df)
  | _ => None
  end.

(** [df.to_excel(p, index=False)] *)
Definition to_excel (env : environment) (fs : filesystem) (p : string)
    (df : DataFrame) : filesystem :=
  <[resolve env p := DocFrame df]> fs.

End Checkpoint.

(* ===================================================================== *)
(** ** DataExtractor.extract_product_info *)
(* ===================================================================== *)

Module Extract.
Import Frame Browser Checkpoint.

(** What [_extract_product_name] and [_extract_price_info] do on a given
    page at a given attempt: the entries they assign in [product_data] and,
    when the call raises, the exception's text. *)
Record extractors := mkExtractors {
  extract_product_name : nat -> pydict * option string;
  extract_price_info : nat -> pydict * option string
}.

(** [product_data[key] = value] for every entry of [assigned]. *)
Definition assign (assigned product_data : pydict) : pydict :=
  assigned ∪ product_data.

Definition max_retries : nat := 3.

(** [product_data = {"URL": url, "ORIGINAL_INDEX": original_index}], plus
    [PROD_ID] when one is given. *)
Definition new_product_data (url original_index prod_id : cell) : pydict :=
  let product_data := <["ORIGINAL_INDEX" := original_index]> (<["URL" := url]> ∅) in
  if is_none prod_id then product_data
  else <["PROD_ID" := prod_id]> product_data.

(** The body of the [try]. *)
Definition try_extract (env : environment) (x : extractors) (retry_count : nat)
    (product_data : pydict) : pydict * option string :=
  let '(name_fields, e1) := extract_product_name x retry_count in
  let d1 := assign name_fields product_data in
  match e1 with
  | Some e => (d1, Some e)
  | None =>
      let '(price_fields, e2) := extract_price_info x retry_count in
      let d2 := assign price_fields d1 in
      match e2 with
      | Some e => (d2, Some e)
      | None =>
          (<["DATE" := CStr (now_date env)]>
             (<["EXTRACTION_TIME" := CStr (now env)]> d2), None)
      end
  end.

(** The record returned once the retries are used up. *)
Definition exhausted (env : environment) (e : string) (product_data : pydict)
    : pydict :=
  let d := setdefault "COUPANG_PROD_NAME" CNone product_data in
  let d := setdefault "PRICE" CNone d in
  let d := setdefault "ORIGIN_PRICE" CNone d in
  let d := setdefault "COUPON" (CInt 0) d in
  let d := setdefault "COUPON_PRICE" CNone d in
  let d := setdefault "AC_PRICE" CNone d in
  let d := <["EXTRACTION_TIME" := CStr (now env)]> d in
  <["ERROR" := CStr e]> d.

(** [while retry_count < max_retries].  [remaining] is
    [max_retries - 1 - retry_count]: after a failure the loop goes on exactly
    when it is a successor. *)
Fixpoint extract_loop (env : environment) (x : extractors)
    (remaining retry_count : nat) (product_data : pydict) : pydict :=
  match try_extract env x retry_count product_data with
  | (d, None) => d
  | (d, Some e) =>
      match remaining with
      | S remaining' => extract_loop env x remaining' (S retry_count) d
      | O => exhausted env e d
      end
  end.

Definition extract_product_info (env : environment) (x : extractors)
    (url original_index prod_id : cell) : pydict :=
  extract_loop env x (max_retries - 1) 0
    (new_product_data url original_index prod_id).

End Extract.

(* ===================================================================== *)
(** ** One page visit *)
(* ===================================================================== *)

Module Visit.
Import Frame Browser Checkpoint Extract.

(** What [page.goto] does at one attempt. *)
Inductive goto_outcome :=
| GotoRaises (e : string)          (* timeout, network error *)
| GotoNoResponse                   (* returns None *)
| GotoResponse (r : response).

(** Everything one record's session answers. *)
Record visit := mkVisit {
  setup_error : option string;     (* new context / stealth script / new page raises *)
  goto : nat -> goto_outcome;      (* by attempt number *)
  loaded : page;
  extraction : extractors
}.

(** The sessions of a run: those of the crawl by position in the window,
    those of the re-crawl by position among the error records. *)
Record web := mkWeb {
  crawl_visit : nat -> visit;
  recrawl_visit : nat -> visit
}.

Definition max_goto_retries : nat := 3.

Definition load_failed (status_text : string) : string :=
  "페이지 로드 실패: 상태 코드 " +:+ status_text.

(** The page-load retry loop.  [inl response] when the loop is left, [inr e]
    when the last attempt re-raises.  [remaining] is
    [max_goto_retries - 1 - goto_retry_count]. *)
Fixpoint goto_loop (v : visit) (remaining goto_retry_count : nat)
    (resp : option response) {struct remaining} : option response + string :=
  match goto v goto_retry_count with
  | GotoResponse r =>
      if ok r then inl (Some r)
      else
        match remaining with
        | S remaining' => goto_loop v remaining' (S goto_retry_count) (Some r)
        | O => inr (load_failed (pretty (status r)))
        end
  | GotoNoResponse =>
      match remaining with
      | S remaining' => goto_loop v remaining' (S goto_retry_count) None
      | O => inr (load_failed "No response")
      end
  | GotoRaises e =>
      match remaining with
      | S remaining' => goto_loop v remaining' (S goto_retry_count) resp
      | O => inr e
      end
  end.

(** [not response or not response.ok] *)
Definition not_loaded (resp : option response) : bool :=
  match resp with
  | Some r => negb (ok r)
  | None => true
  end.

End Visit.

(* ===================================================================== *)
(** ** ResultValidator *)
(* ===================================================================== *)

Module Validator.
Import Frame Browser Checkpoint Extract Visit BlockDetect.

Definition critical_fields : list string :=
  [ "PRICE"; "ORIGIN_PRICE"; "COUPANG_PROD_NAME" ].

(** The list [error_conditions] built by [_identify_error_records]: one
    boolean series per column that is present. *)
Definition error_conditions (df : DataFrame) : list (list bool) :=
  (if has_column df "ERROR" then [map notna (series df "ERROR")] else []) ++
  flat_map
    (fun field =>
       if has_column df field
       then [map (fun c => cell_eqb c (CStr "NA")) (series df field)]
       else [])
    critical_fields.

Definition _identify_error_records (df : DataFrame) : DataFrame :=
  match error_conditions df with
  | first :: others => select df (foldl mask_or first others)
  | [] => empty_frame
  end.

(** The negation of ["ERROR" not in fixed_record or fixed_record["ERROR"] is None]. *)
Definition has_error_marker (fixed_record : pydict) : bool :=
  match fixed_record !! "ERROR" with
  | Some c => negb (is_none c)
  | None => false
  end.

(** [original_df["ORIGINAL_INDEX"] == orig_idx] *)
Definition index_mask (df : DataFrame) (orig_idx : cell) : list bool :=
  map (fun c => cell_eqb c orig_idx) (series df "ORIGINAL_INDEX").

(** The two assignments made for a re-crawl that succeeded. *)
Definition overwrite (df : DataFrame) (mask : list bool) (fixed_record : pydict)
    : DataFrame :=
  let df1 :=
    map_fold
      (fun col value acc =>
         if has_column df col then loc_set mask col value acc else acc)
      df fixed_record in
  if has_column df "ERROR" then loc_set mask "ERROR" CNone df1 else df1.

(** One turn of the loop of [_update_dataframe]; [None] is the [KeyError]
    of a frame without an [ORIGINAL_INDEX] column. *)
Definition update_record (df : DataFrame) (fixed_record : pydict)
    : option DataFrame :=
  match fixed_record !! "ORIGINAL_INDEX" with
  | None => Some df
  | Some orig_idx =>
      if is_none orig_idx then Some df
      else if has_column df "ORIGINAL_INDEX" then
        let mask := index_mask df orig_idx in
        if mask_any mask then
          if has_error_marker fixed_record then Some df
          else Some (overwrite df mask fixed_record)
        else Some df
      else None
  end.

Fixpoint _update_dataframe (original_df : DataFrame)
    (fixed_records : list pydict) : option DataFrame :=
  match fixed_records with
  | [] => Some original_df
  | fixed_record :: others =>
      match update_record original_df fixed_record with
      | Some df => _update_dataframe df others
      | None => None
      end
  end.

(** The [except] branch of the re-crawl: the first error row with that
    index, as a dict, with a fresh [ERROR]; [None] when no row has it
    ([IndexError]). *)
Definition recrawl_failed (error_df : DataFrame) (original_index : cell)
    (e : string) : option pydict :=
  match select_rows (index_mask error_df original_index) (rows error_df) with
  | r :: _ =>
      Some (<["ERROR" := CStr ("재수집 실패: " +:+ e)]> (to_dict (columns error_df) r))
  | [] => None
  end.

(** The body of the [try] for one record: the record it appends, or the
    exception it raises. *)
Definition recrawl_try (env : environment) (cfg : selectors_config) (v : visit)
    (url original_index prod_id : cell) : pydict + string :=
  match setup_error v with
  | Some e => inr e
  | None =>
      match goto_loop v (max_retries - 1) 0 None with
      | inr e => inr e
      | inl resp =>
          if detect_block cfg (loaded v) resp then inr "차단 감지됨"
          else inl (extract_product_info env (extraction v)
                      url original_index prod_id)
      end
  end.

Definition recrawl_record (env : environment) (cfg : selectors_config)
    (v : visit) (error_df : DataFrame) (row : pydict) : option pydict :=
  let url := at_col row "URL" in
  let original_index := at_col row "ORIGINAL_INDEX" in
  let prod_id :=
    if has_column error_df "PROD_ID" then at_col row "PROD_ID" else CNone in
  match recrawl_try env cfg v url original_index prod_id with
  | inl product_data => Some product_data
  | inr e => recrawl_failed error_df original_index e
  end.

(** The rows of one re-crawl batch, [pos] being the position of the first
    among the error records.  Returns the batch results ([None] when an
    exception escapes) and the URLs that were re-driven. *)
Fixpoint recrawl_rows (env : environment) (cfg : selectors_config) (w : web)
    (error_df : DataFrame) (pos : nat) (batch : list pydict)
    : option (list pydict) * list cell :=
  match batch with
  | [] => (Some [], [])
  | row :: batch' =>
      match recrawl_record env cfg (recrawl_visit w pos) error_df row with
      | None => (None, [at_col row "URL"])
      | Some result =>
          let '(results, urls) :=
            recrawl_rows env cfg w error_df (S pos) batch' in
          (option_map (cons result) results, at_col row "URL" :: urls)
      end
  end.

(** [for i in range(0, len(recrawl_df), batch_size)] *)
Fixpoint recrawl_batches (env : environment) (cfg : selectors_config) (w : web)
    (error_df : DataFrame) (batch_size : nat) (fuel i : nat)
    : option (list pydict) * list cell :=
  match fuel with
  | O => (Some [], [])
  | S fuel' =>
      if (i <? length (rows error_df))%nat then
        let batch := take batch_size (drop i (rows error_df)) in
        match recrawl_rows env cfg w error_df i batch with
        | (None, urls) => (None, urls)
        | (Some batch_results, urls) =>
            let '(results, urls') :=
              recrawl_batches env cfg w error_df batch_size fuel' (i + batch_size) in
            (option_map (app batch_results) results, (urls ++ urls')%list)
        end
      else (Some [], [])
  end.

Definition _recrawl_error_urls (env : environment) (cfg : selectors_config)
    (w : web) (error_df : DataFrame) (batch_size : nat)
    : option (list pydict) * list cell :=
  if (length (rows error_df) =? 0)%nat then (Some [], [])
  else if negb (has_column error_df "URL" && has_column error_df "ORIGINAL_INDEX")
  then (None, [])                                        (* KeyError *)
  else if (batch_size =? 0)%nat then (None, [])          (* range() step 0 *)
  else recrawl_batches env cfg w error_df batch_size (length (rows error_df)) 0.

(** What a validation leaves behind: its return value, the files, and the
    URLs it re-drove through a browser session. *)
Record validation := mkValidation {
  succeeded : bool;
  files_after : filesystem;
  recrawled : list cell
}.

Definition validate_and_recrawl (env : environment) (cfg : selectors_config)
    (w : web) (fs : filesystem) (result_file : string) (batch_size : nat)
    : validation :=
  if negb (exists_file env fs result_file) then mkValidation false fs []
  else
    match read_excel env fs result_file with
    | None => mkValidation false fs []
    | Some df =>
        let orig_backup_file :=
          Text.replace ".xlsx" "_original.xlsx" result_file in
        let fs1 := to_excel env fs orig_backup_file df in
        let error_df := _identify_error_records df in
        if (length (rows error_df) =? 0)%nat then
          let validated_file :=
            Text.replace ".xlsx" "_validated.xlsx" result_file in
          mkValidation true (to_excel env fs1 validated_file df) []
        else
          match _recrawl_error_urls env cfg w error_df batch_size with
          | (None, urls) => mkValidation false fs1 urls
          | (Some fixed_records, urls) =>
              match _update_dataframe df fixed_records with
              | None => mkValidation false fs1 urls
              | Some updated_df =>
                  let validated_file :=
                    Text.replace ".xlsx"
                      ("_validated_" +:+ today env +:+ ".xlsx") result_file in
                  mkValidation true (to_excel env fs1 validated_file updated_df) urls
              end
          end
    end.

(** *** Error records, as the specification words them *)

(** An error record: the [ERROR] column is set, or a critical field holds
    the sentinel; each test only for a column the frame has. *)
Definition is_error_record (df : DataFrame) (row : pydict) : Prop :=
  ("ERROR" ∈ columns df /\ notna (at_col row "ERROR") = true) \/
  ("PRICE" ∈ columns df /\ at_col row "PRICE" = CStr "NA") \/
  ("ORIGIN_PRICE" ∈ columns df /\ at_col row "ORIGIN_PRICE" = CStr "NA") \/
  ("COUPANG_PROD_NAME" ∈ columns df /\ at_col row "COUPANG_PROD_NAME" = CStr "NA").

#[global] Instance is_error_record_dec (df : DataFrame) (row : pydict) :
  Decision (is_error_record df row).
Proof. unfold is_error_record. apply _. Defined.

(** *** The merge step, as the specification words it *)

(** The output-store row a re-crawled result corresponds to: the one whose
    [ORIGINAL_INDEX] equals the result's. *)
Definition corresponds (row fixed_record : pydict) : Prop :=
  exists orig_idx,
    fixed_record !! "ORIGINAL_INDEX" = Some orig_idx /\
    cell_eqb (at_col row "ORIGINAL_INDEX") orig_idx = true.

(** Merge safety as stated: after the merge, every row that corresponds to
    a result carrying an error marker is what it was before. *)
Definition merge_keeps_failed_rows (df : DataFrame) (fixed_records : list pydict)
    : Prop :=
  forall df' r i row,
    _update_dataframe df fixed_records = Some df' ->
    r ∈ fixed_records -> has_error_marker r = true ->
    rows df !! i = Some row -> corresponds row r ->
    rows df' !! i = Some row.

(** *** The merge seen from one row *)

(** The loop [for col, value in fixed_record.items()] on one masked row. *)
Definition write_fields (cols : gset string) (fixed_record row : pydict)
    : pydict :=
  map_fold
    (fun col value acc =>
       if bool_decide (col ∈ cols) then <[col := value]> acc else acc)
    row fixed_record.

(** What [overwrite] makes of a masked row. *)
Definition merge_row (cols : gset string) (fixed_record row : pydict) : pydict :=
  let row1 := write_fields cols fixed_record row in
  if bool_decide ("ERROR" ∈ cols) then <["ERROR" := CNone]> row1 else row1.

(** What one turn of the loop of [_update_dataframe] makes of a row. *)
Definition update_row (cols : gset string) (fixed_record row : pydict) : pydict :=
  match fixed_record !! "ORIGINAL_INDEX" with
  | Some orig_idx =>
      if cell_eqb (at_col row "ORIGINAL_INDEX") orig_idx
         && negb (has_error_marker fixed_record)
      then merge_row cols fixed_record row
      else row
  | None => row
  end.

End Validator.

(* ===================================================================== *)
(** ** CoupangCrawler *)
(* ===================================================================== *)

Module Crawler.
Import Frame Browser Checkpoint Extract Visit BlockDetect Validator.

(** The entries of [crawler_config.json] that the run reads. *)
Record crawler_config := mkConfig {
  config_batch_size : option Z;
  output_basename : option string;
  recovery_wait : option Z   (* [None]: no such key, or not a number *)
}.

(** [self.stats] *)
Record statistics := mkStatistics {
  total_urls : Z;
  processed_urls : Z;
  success_count : Z;
  fail_count : Z;
  block_count : Z
}.

(** The state a run works on: the files, the counters, and the checkpoints
    [save_status] has reported as saved, oldest first. *)
Record world := mkWorld {
  files : filesystem;
  stats : statistics;
  saved : list crawler_status
}.

Definition set_files (w : world) (fs : filesystem) : world :=
  {| files := fs; stats := stats w; saved := saved w |}.

Definition set_stats (w : world) (st : statistics) : world :=
  {| files := files w; stats := st; saved := saved w |}.

(** [self.config_manager.save_status(...)] *)
Definition checkpoint (env : environment) (w : world) (xlsx : string)
    (batch_idx overall_idx : Z) (blocked : option Z) : world :=
  let '(st, fs) := save_status env (files w) xlsx batch_idx overall_idx blocked in
  {| files := fs; stats := stats w; saved := (saved w ++ [st])%list |}.

Definition count_processed (st : statistics) : statistics :=
  {| total_urls := total_urls st; processed_urls := processed_urls st + 1;
     success_count := success_count st; fail_count := fail_count st;
     block_count := block_count st |}.

Definition count_success (st : statistics) : statistics :=
  {| total_urls := total_urls st; processed_urls := processed_urls st;
     success_count := success_count st + 1; fail_count := fail_count st;
     block_count := block_count st |}.

Definition count_fail (st : statistics) : statistics :=
  {| total_urls := total_urls st; processed_urls := processed_urls st;
     success_count := success_count st; fail_count := fail_count st + 1;
     block_count := block_count st |}.

Definition count_block (st : statistics) : statistics :=
  {| total_urls := total_urls st; processed_urls := processed_urls st;
     success_count := success_count st; fail_count := fail_count st;
     block_count := block_count st + 1 |}.

(** [error_data["PROD_ID"] = prod_id] when [prod_id is not None] *)
Definition with_prod_id (prod_id : cell) (d : pydict) : pydict :=
  if is_none prod_id then d else <["PROD_ID" := prod_id]> d.

(** The record stored when the page never loaded (the [if not response or
    not response.ok] branch). *)
Definition page_load_error_data (env : environment) (url : cell)
    (original_index : Z) (prod_id : cell) : pydict :=
  with_prod_id prod_id
    (list_to_map
       [ ("URL", url);
         ("ORIGINAL_INDEX", CInt original_index);
         ("ERROR", CStr "Page load failed after retries");
         ("COUPANG_PROD_NAME", CStr "NA");
         ("PRICE", CStr "NA");
         ("ORIGIN_PRICE", CStr "NA");
         ("COUPON", CInt 0);
         ("COUPON_PRICE", CStr "NA");
         ("AC_PRICE", CStr "NA");
         ("EXTRACTION_TIME", CStr (now env)) ]).

(** The record stored by the [except Exception as e] of the record loop. *)
Definition error_data (env : environment) (url : cell) (original_index : Z)
    (prod_id : cell) (e : string) : pydict :=
  with_prod_id prod_id
    (list_to_map
       [ ("URL", url);
         ("ORIGINAL_INDEX", CInt original_index);
         ("COUPANG_PROD_NAME", CStr "NA");
         ("PRICE", CStr "NA");
         ("ORIGIN_PRICE", CStr "NA");
         ("COUPON", CInt 0);
         ("COUPON_PRICE", CStr "NA");
         ("AC_PRICE", CStr "NA");
         ("EXTRACTION_TIME", CStr (now env));
         ("ERROR", CStr e) ]).

(** How the processing of one record ends. *)
Inductive outcome :=
| Extracted (product_data : pydict)    (* appended; success_count += 1 *)
| Failed (error_row : pydict)          (* appended; fail_count += 1 *)
| Blocked.                             (* nothing appended; break *)

(** The [try] of the record loop of [_process_batch]. *)
Definition process_record (env : environment) (cfg : selectors_config)
    (v : visit) (url : cell) (original_index : Z) (prod_id : cell) : outcome :=
  match setup_error v with
  | Some e => Failed (error_data env url original_index prod_id e)
  | None =>
      match goto_loop v (max_goto_retries - 1) 0 None with
      | inr e => Failed (error_data env url original_index prod_id e)
      | inl resp =>
          if not_loaded resp
          then Failed (page_load_error_data env url original_index prod_id)
          else if detect_block cfg (loaded v) resp then Blocked
          else Extracted (extract_product_info env (extraction v)
                            url (CInt original_index) prod_id)
      end
  end.

(** [range(a, b)] *)
Definition range (a b : Z) : list Z :=
  map (fun i => (a + Z.of_nat i)%Z) (seq 0 (Z.to_nat (b - a))).

(** [rows.iloc[i]]; a negative position counts from the end, [None] is the
    [IndexError]. *)
Definition iloc {A} (l : list A) (i : Z) : option A :=
  let n := Z.of_nat (length l) in
  if (i <? 0)%Z
  then (if (0 <=? n + i)%Z then l !! Z.to_nat (n + i) else None)
  else l !! Z.to_nat i.

(** The result of [_process_batch]: [(blocked, batch_results, blocked_idx)]. *)
Record batch_result := mkBatchResult {
  blocked : bool;
  batch_results : list pydict;
  blocked_idx : option Z
}.

(** What the loop body does with the record at position [idx] of the
    window: fetch its row and drive it through a session.  [None] is an
    exception raised before the [try] ([IndexError], [KeyError]). *)
Definition visit_record (env : environment) (cfg : selectors_config) (w : web)
    (df_to_process : DataFrame) (start_index idx : Z) : option outcome :=
  match iloc (rows df_to_process) idx with
  | None => None
  | Some row =>
      if negb (has_column df_to_process "URL") then None
      else
        let url := at_col row "URL" in
        let original_index := (start_index + idx)%Z in
        let prod_id :=
          if has_column df_to_process "PROD_ID"
          then at_col row "PROD_ID" else CNone in
        Some (process_record env cfg (crawl_visit w (Z.to_nat idx))
                url original_index prod_id)
  end.

(** The record loop of [_process_batch]; [None] is an exception that leaves
    the function. *)
Fixpoint batch_loop (env : environment) (cfg : selectors_config) (w : web)
    (df_to_process : DataFrame) (batch_start start_index : Z)
    (idxs : list Z) (st : statistics) (results : list pydict)
    : option (batch_result * statistics) :=
  match idxs with
  | [] => Some (mkBatchResult false results None, st)
  | idx :: idxs' =>
      let relative_idx := (idx - batch_start)%Z in
      if (Z.of_nat (length (rows df_to_process)) <=? relative_idx)%Z
      then Some (mkBatchResult false results None, st)
      else
        match visit_record env cfg w df_to_process start_index idx with
        | None => None
        | Some o =>
            let st := count_processed st in
            match o with
            | Extracted product_data =>
                batch_loop env cfg w df_to_process batch_start start_index
                  idxs' (count_success st) (results ++ [product_data])%list
            | Failed error_row =>
                batch_loop env cfg w df_to_process batch_start start_index
                  idxs' (count_fail st) (results ++ [error_row])%list
            | Blocked =>
                Some (mkBatchResult true results (Some relative_idx),
                      count_block st)
            end
        end
  end.

Definition _process_batch (env : environment) (cfg : selectors_config)
    (w : web) (df_to_process : DataFrame) (batch_start batch_end : Z)
    (st : statistics) (start_index : Z) : option (batch_result * statistics) :=
  batch_loop env cfg w df_to_process batch_start start_index
    (range batch_start batch_end) st [].

Definition _save_results_to_single_file (env : environment) (fs : filesystem)
    (new_results : list pydict) (output_file : string) : filesystem :=
  match new_results with
  | [] => fs
  | _ =>
      let new_df := from_records new_results in
      if exists_file env fs output_file then
        match read_excel env fs output_file with
        | Some existing_df =>
            to_excel env fs output_file (concat_frames existing_df new_df)
        | None =>
            let backup_file :=
              Text.replace ".xlsx" ("_backup_" +:+ now_stamp env +:+ ".xlsx")
                output_file in
            to_excel env fs backup_file new_df
        end
      else to_excel env fs output_file new_df
  end.

(** The start of the window after the auto-restart check. *)
Definition resolve_start_index (auto_restart : bool)
    (saved_status : option crawler_status) (xlsx_file_path : string)
    (start_index : Z) : Z :=
  if auto_restart then
    match saved_status with
    | Some s =>
        if String.eqb (file_path s) xlsx_file_path then
          match blocked_url_idx s with
          | Some blocked_url_idx => blocked_url_idx
          | None =>
              if (start_index <? last_index s)%Z then last_index s
              else start_index
          end
        else start_index
    | None => start_index
    end
  else start_index.

Definition initial_status (env : environment) : crawler_status :=
  {| file_path := ""; last_batch := 0; last_index := 0;
     blocked_url_idx := None; timestamp := now env |}.

(** The status reset of a completed run: it tests and writes
    [self.config_manager.STATUS_FILE]. *)
Definition reset_status_file (env : environment) (fs : filesystem) : filesystem :=
  if exists_file env fs STATUS_FILE
  then <[resolve env STATUS_FILE := DocStatus (initial_status env)]> fs
  else fs.

(** How [process_urls] ends. *)
Inductive run_end :=
| RunCompleted        (* the window is exhausted *)
| RunBlocked          (* a block was detected: [return] *)
| RunNotStarted       (* no input file, or no URL column: [return] *)
| RunRaised           (* an exception reached the outer [except] *)
| RunDiverges.        (* the batch loop does not end *)

(** What the run does once the last batch is done. *)
Definition complete_run (env : environment) (cfg : selectors_config) (wb : web)
    (auto_validate : bool) (output_file : string) (w : world) : world :=
  let fs := reset_status_file env (files w) in
  if auto_validate && exists_file env fs output_file
  then set_files w (files_after (validate_and_recrawl env cfg wb fs output_file 5))
  else set_files w fs.

(** One turn of the [while batch_idx * batch_size < total_urls] loop, the
    test included: [inl] when the loop ends there (the test fails, a [return],
    the [break] of the last batch, an exception), [inr] when it goes on with
    the next batch. *)
Definition batch_step (env : environment) (cfg : selectors_config) (wb : web)
    (xlsx_file_path : string) (df_to_process : DataFrame)
    (batch_size start_index total : Z) (auto_validate : bool)
    (output_file : string) (batch_idx : Z) (w : world)
    : (run_end * world) + world :=
  if (batch_idx * batch_size <? total)%Z then
    let batch_start := (batch_idx * batch_size)%Z in
    let batch_end := Z.min (batch_start + batch_size) total in
    let w := checkpoint env w xlsx_file_path batch_idx
               (start_index + batch_start) None in
    match _process_batch env cfg wb df_to_process batch_start batch_end
            (stats w) start_index with
    | None => inl (RunRaised, w)
    | Some (result, st) =>
        let w := set_stats w st in
        let w := set_files w (_save_results_to_single_file env (files w)
                                (batch_results result) output_file) in
        if blocked result then
          match blocked_idx result with
          | Some i =>
              inl (RunBlocked,
                   checkpoint env w xlsx_file_path batch_idx
                     (start_index + batch_start)
                     (Some (start_index + batch_start + i)%Z))
          | None => inl (RunBlocked, w)
          end
        else
          let w := checkpoint env w xlsx_file_path (batch_idx + 1)
                     (start_index + batch_end) None in
          let batch_idx := (batch_idx + 1)%Z in
          if (total <=? batch_idx * batch_size)%Z
          then inl (RunCompleted,
                    complete_run env cfg wb auto_validate output_file w)
          else inr w
    end
  else inl (RunCompleted, w).

(** The loop.  [fuel] bounds the number of further batches; running out of
    it stands for a loop that does not end. *)
Fixpoint batches_loop (env : environment) (cfg : selectors_config) (wb : web)
    (xlsx_file_path : string) (df_to_process : DataFrame)
    (batch_size start_index total : Z) (auto_validate : bool)
    (output_file : string) (fuel : nat) (batch_idx : Z) (w : world)
    {struct fuel} : run_end * world :=
  match batch_step env cfg wb xlsx_file_path df_to_process batch_size
          start_index total auto_validate output_file batch_idx w with
  | inl ended => ended
  | inr w' =>
      match fuel with
      | S fuel' =>
          batches_loop env cfg wb xlsx_file_path df_to_process batch_size
            start_index total auto_validate output_file fuel'
            (batch_idx + 1)%Z w'
      | O => (RunDiverges, w')
      end
  end.

(** The counters reset after the loop. *)
Definition clear_counts (st : statistics) : statistics :=
  {| total_urls := total_urls st; processed_urls := processed_urls st;
     success_count := success_count st; fail_count := 0; block_count := 0 |}.

Definition set_total (st : statistics) (n : Z) : statistics :=
  {| total_urls := n; processed_urls := processed_urls st;
     success_count := success_count st; fail_count := fail_count st;
     block_count := block_count st |}.

(** [batch_size or config.get("batch_size", 15)] *)
Definition effective_batch_size (batch_size : option Z) (config : crawler_config)
    : Z :=
  match batch_size with
  | Some b => if (b =? 0)%Z then default 15%Z (config_batch_size config) else b
  | None => default 15%Z (config_batch_size config)
  end.

(** [os.path.join("RAW", f"{today}_{output_basename}.xlsx")] *)
Definition output_file_of (env : environment) (config : crawler_config) : string :=
  path_join "RAW"
    (today env +:+ "_" +:+ default "coupang_results" (output_basename config)
       +:+ ".xlsx").

(** The window [df.iloc[start_index:end_index]] of a run. *)
Definition window (df : DataFrame) (start_index : Z) (end_index : option Z)
    : DataFrame :=
  let n := Z.of_nat (length (rows df)) in
  let stop := match end_index with
              | None => n
              | Some e => Z.min e n
              end in
  {| columns := columns df; rows := slice (rows df) start_index stop |}.

Definition process_urls (env : environment) (cfg : selectors_config)
    (config : crawler_config) (wb : web) (w : world) (xlsx_file_path : string)
    (batch_size : option Z) (start_index : Z) (end_index : option Z)
    (auto_restart auto_validate : bool) : run_end * world :=
  let batch_size := effective_batch_size batch_size config in
  match recovery_wait config with
  | None => (RunRaised, w)        (* [config.get('recovery_wait')//60] *)
  | Some _ =>
  if negb (exists_file env (files w) xlsx_file_path) then (RunNotStarted, w)
  else
    match read_excel env (files w) xlsx_file_path with
    | None => (RunRaised, w)
    | Some df =>
        if negb (has_column df "URL") then (RunNotStarted, w)
        else
          let start_index :=
            resolve_start_index auto_restart (load_status env (files w))
              xlsx_file_path start_index in
          let df_to_process := window df start_index end_index in
          let total := Z.of_nat (length (rows df_to_process)) in
          let w := set_stats w (set_total (stats w) total) in
          let output_file := output_file_of env config in
          match batches_loop env cfg wb xlsx_file_path df_to_process batch_size
                  start_index total auto_validate output_file
                  (length (rows df_to_process)) 0 w with
          | (RunCompleted, w') => (RunCompleted, set_stats w' (clear_counts (stats w')))
          | other => other
          end
    end
  end.

(** *** One row per record, as the specification words it *)

(** The row a record's outcome appends to [batch_results]. *)
Definition emitted (o : outcome) : option pydict :=
  match o with
  | Extracted product_data => Some product_data
  | Failed error_row => Some error_row
  | Blocked => None
  end.



(** The checkpoint [save_status] writes for the given arguments. *)
Definition status_of (env : environment) (xlsx : string)
    (batch_idx overall_idx : Z) (blocked : option Z) : crawler_status :=
  {| file_path := xlsx; last_batch := batch_idx; last_index := overall_idx;
     blocked_url_idx := blocked; timestamp := now env |}.





(** The row the record at [idx] of the window appends, if it appends one. *)
Definition row_of (env : environment) (cfg : selectors_config) (wb : web)
    (df_to_process : DataFrame) (start_index idx : Z) : option pydict :=
  visit_record env cfg wb df_to_process start_index idx ≫= emitted.

End Crawler.

(* ===================================================================== *)
(** ** Sample inputs *)
(* ===================================================================== *)

Module Samples.
Import Frame Browser Checkpoint Extract Visit BlockDetect Validator Crawler.

(** The page of the counterexamples for the verdict: its content cannot be
    read, every indicator is present, and its title says "blocked". *)
Definition unreadable_page : page :=
  {| content := None;
     locator_count := fun _ => Some 1;
     title := Some "차단" |}.

(** A readable page on which counting any selector raises. *)
Definition uncountable_page : page :=
  {| content := Some "<html><body>product</body></html>";
     locator_count := fun _ => None;
     title := Some "product" |}.

(** A readable page with every indicator present, whose title cannot be
    read. *)
Definition untitled_page : page :=
  {| content := Some "<html><body>product</body></html>";
     locator_count := fun _ => Some 1;
     title := None |}.

Definition sample_env : environment :=
  {| base_dir := "/home/crawler/coupang-crawler-project";
     cwd := "/home/crawler/coupang-crawler-project";
     today := "2025-04-25";
     now := "2025-04-25 10:00:00";
     now_date := "2025-04-25";
     now_stamp := "20250425_100000" |}.

(** A product page that loads and shows a name and a price. *)
Definition product_page : page :=
  {| content := Some "<html><body>product</body></html>";
     locator_count := fun _ => Some 1;
     title := Some "product" |}.

Definition product_extractors : extractors :=
  {| extract_product_name := fun _ =>
       ({[ "COUPANG_PROD_NAME" := CStr "iPhone" ]}, None);
     extract_price_info := fun _ =>
       (list_to_map
          [ ("PRICE", CInt 1350000);
            ("ORIGIN_PRICE", CInt 1500000);
            ("COUPON", CInt 0);
            ("COUPON_PRICE", CNone);
            ("AC_PRICE", CStr "NA") ], None) |}.

(** Extractors whose name step raises at every attempt. *)
Definition raising_extractors : extractors :=
  {| extract_product_name := fun _ => (∅, Some "locator crashed");
     extract_price_info := fun _ => (∅, None) |}.

(** The session of a page that loads at the first attempt. *)
Definition good_visit : visit :=
  {| setup_error := None;
     goto := fun _ => GotoResponse (Response 200);
     loaded := product_page;
     extraction := product_extractors |}.

(** The session of a page that times out at every attempt. *)
Definition timeout_visit : visit :=
  {| setup_error := None;
     goto := fun _ => GotoRaises "Timeout 60000ms exceeded";
     loaded := product_page;
     extraction := product_extractors |}.

(** The session of a page that loads but whose extraction keeps raising. *)
Definition raising_visit : visit :=
  {| setup_error := None;
     goto := fun _ => GotoResponse (Response 200);
     loaded := product_page;
     extraction := raising_extractors |}.

(** The session of a page that loads and shows the block phrase. *)
Definition blocked_visit : visit :=
  {| setup_error := None;
     goto := fun _ => GotoResponse (Response 200);
     loaded := {| content := Some "<html>Access Denied</html>";
                  locator_count := fun _ => Some 0;
                  title := Some "" |};
     extraction := product_extractors |}.

(** An output store without error records. *)
Definition clean_store : DataFrame :=
  {| columns := {[ "URL"; "ORIGINAL_INDEX"; "COUPANG_PROD_NAME"; "PRICE";
                   "ORIGIN_PRICE"; "AC_PRICE" ]};
     rows := [ list_to_map
                 [ ("URL", CStr "https://www.coupang.com/vp/products/1");
                   ("ORIGINAL_INDEX", CInt 0);
                   ("COUPANG_PROD_NAME", CStr "iPhone");
                   ("PRICE", CInt 1350000);
                   ("ORIGIN_PRICE", CInt 1500000);
                   ("AC_PRICE", CStr "NA") ] ] |}.

Definition clean_files : filesystem :=
  {[ "/home/crawler/coupang-crawler-project/RAW/2025-04-25_coupang_results.xlsx"
       := DocFrame clean_store ]}.

(** An output store in which the record with index 7 was appended by two
    runs, and failed in both. *)
Definition failed_row (e : string) : pydict :=
  list_to_map
    [ ("URL", CStr "https://www.coupang.com/vp/products/7");
      ("ORIGINAL_INDEX", CInt 7);
      ("PRICE", CStr "NA");
      ("ERROR", CStr e) ].

Definition twice_failed_store : DataFrame :=
  {| columns := {[ "URL"; "ORIGINAL_INDEX"; "PRICE"; "ERROR" ]};
     rows := [ failed_row "Timeout 60000ms exceeded";
               failed_row "net::ERR_CONNECTION_RESET" ] |}.

(** The re-crawl of its two rows: the first session succeeds, the second
    times out. *)
Definition mixed_web : web :=
  {| crawl_visit := fun _ => good_visit;
     recrawl_visit := fun pos => match pos with
                                 | O => good_visit
                                 | S _ => timeout_visit
                                 end |}.

Definition recrawl_fixed : pydict :=
  extract_product_info sample_env product_extractors
    (CStr "https://www.coupang.com/vp/products/7") (CInt 7) CNone.

Definition recrawl_still_failed : pydict :=
  <["ERROR" := CStr "재수집 실패: Timeout 60000ms exceeded"]>
    (failed_row "Timeout 60000ms exceeded").

Definition mixed_recrawl : list pydict :=
  [ recrawl_fixed; recrawl_still_failed ].

(** An input store of three product URLs. *)
Definition three_urls : DataFrame :=
  {| columns := {[ "URL" ]};
     rows := [ {[ "URL" := CStr "https://www.coupang.com/vp/products/0" ]};
               {[ "URL" := CStr "https://www.coupang.com/vp/products/1" ]};
               {[ "URL" := CStr "https://www.coupang.com/vp/products/2" ]} ] |}.

(** Every session of the crawl succeeds. *)
Definition good_web : web :=
  {| crawl_visit := fun _ => good_visit; recrawl_visit := fun _ => good_visit |}.

(** The second record of the window runs into the block page. *)
Definition blocking_web : web :=
  {| crawl_visit := fun idx => match idx with
                               | 1%nat => blocked_visit
                               | _ => good_visit
                               end;
     recrawl_visit := fun _ => good_visit |}.

Definition no_stats : statistics :=
  {| total_urls := 0; processed_urls := 0; success_count := 0;
     fail_count := 0; block_count := 0 |}.

(** The files of a fresh crawl started from the project directory: the
    input workbook and the checkpoint document under [config/]. *)
Definition sample_files : filesystem :=
  <["/home/crawler/coupang-crawler-project/urls.xlsx" := DocFrame three_urls]>
    {[ "/home/crawler/coupang-crawler-project/config/crawler_status.json"
         := DocStatus (mkStatus "" 0 0 None "2025-04-24 09:00:00") ]}.

Definition sample_world : world :=
  {| files := sample_files; stats := no_stats; saved := [] |}.

Definition sample_config : crawler_config :=
  {| config_batch_size := Some 2%Z; output_basename := None;
     recovery_wait := Some 300%Z |}.

(** The same files with, in addition, a [crawler_status.json] lying in the
    working directory. *)
Definition stray_files : filesystem :=
  <["/home/crawler/coupang-crawler-project/crawler_status.json"
      := DocStatus (mkStatus "" 0 0 None "2025-04-24 09:00:00")]> sample_files.

Definition stray_world : world :=
  {| files := stray_files; stats := no_stats; saved := [] |}.

End Samples.

(* ===================================================================== *)
(** ** Words for the further properties *)
(* ===================================================================== *)

Module Words.
Import Frame Browser Checkpoint Extract Visit BlockDetect Validator Crawler.

(** A page-load attempt that does not end the retry loop: it raises,
    returns no response, or returns a response that is not 2xx. *)
Definition attempt_fails (o : goto_outcome) : Prop :=
  match o with
  | GotoResponse r => ok r = false
  | _ => True
  end.

(** The exception a failed attempt leaves in [goto_error]. *)
Definition attempt_error (o : goto_outcome) : string :=
  match o with
  | GotoRaises e => e
  | GotoNoResponse => load_failed "No response"
  | GotoResponse r => load_failed (pretty (status r))
  end.

(** The rows of the workbook at a path, none when there is no workbook. *)
Definition stored_rows (env : environment) (fs : filesystem) (p : string)
    : list pydict :=
  match read_excel env fs p with
  | Some df => rows df
  | None => []
  end.

(** The path is free, or holds a workbook. *)
Definition workbook_or_free (env : environment) (fs : filesystem) (p : string)
    : Prop :=
  exists_file env fs p = true -> is_Some (read_excel env fs p).

(** A row whose [ORIGINAL_INDEX] is a value that compares equal to itself
    (an integer or a string, not a null). *)
Definition indexed (row : pydict) : Prop :=
  cell_eqb (at_col row "ORIGINAL_INDEX") (at_col row "ORIGINAL_INDEX") = true.

(** The three paths a validation of [result_file] can write. *)
Definition backup_path (result_file : string) : string :=
  Text.replace ".xlsx" "_original.xlsx" result_file.

Definition validated_path (result_file : string) : string :=
  Text.replace ".xlsx" "_validated.xlsx" result_file.

Definition validated_today_path (env : environment) (result_file : string)
    : string :=
  Text.replace ".xlsx" ("_validated_" +:+ today env +:+ ".xlsx") result_file.

End Words.

(* ===================================================================== *)
(** ** Further sample inputs *)
(* ===================================================================== *)

Module MoreSamples.
Import Frame Browser Checkpoint Extract Visit BlockDetect Validator Crawler.
Import Samples Words.

(** A session whose page times out, then answers 503, then loads. *)
Definition flaky_visit : visit :=
  {| setup_error := None;
     goto := fun k => match k with
                      | 0%nat => GotoRaises "Timeout 60000ms exceeded"
                      | 1%nat => GotoResponse (Response 503)
                      | _ => GotoResponse (Response 200)
                      end;
     loaded := product_page;
     extraction := product_extractors |}.

(** A session whose page answers 403 at every attempt. *)
Definition forbidden_visit : visit :=
  {| setup_error := None;
     goto := fun _ => GotoResponse (Response 403);
     loaded := product_page;
     extraction := product_extractors |}.


(** The files of a validation: the output store of the day holds the two
    failed rows. *)
Definition failed_files : filesystem :=
  {[ "/home/crawler/coupang-crawler-project/RAW/2025-04-25_coupang_results.xlsx"
       := DocFrame twice_failed_store ]}.


End MoreSamples.

(* ===================================================================== *)
(** * Properties *)
(* ===================================================================== *)

(** ** Shared lemmas *)

Module Aux.
Import Frame.

Lemma existsb_elem_of {A} (f : A -> bool) (l : list A) :
  existsb f l = true <-> exists x, x ∈ l /\ f x = true.
Proof.
  rewrite existsb_exists. split; intros (x & Hx & Hf); exists x; split; auto.
  - by apply list_elem_of_In.
  - by apply list_elem_of_In.
Qed.

Lemma cell_eqb_eq (a b : cell) : cell_eqb a b = true -> a = b.
Proof.
  destruct a, b; simpl; try discriminate.
  - intros H. apply Z.eqb_eq in H. by subst.
  - intros H. apply String.eqb_eq in H. by subst.
Qed.

Lemma cell_eqb_str (c : cell) (s : string) :
  cell_eqb c (CStr s) = true <-> c = CStr s.
Proof.
  split.
  - apply cell_eqb_eq.
  - intros ->. simpl. apply String.eqb_refl.
Qed.

End Aux.

(** ** Block detection *)

Module BlockDetectFacts.
Import Browser BlockDetect Aux Samples.

Lemma status_blocked_signal (resp : option response) :
  status_blocked resp = true <-> status_signal resp.
Proof.
  unfold status_blocked, status_signal, block_status_codes.
  destruct resp as [r|].
  - rewrite bool_decide_eq_true. split.
    + rewrite !elem_of_cons, elem_of_nil. intros H. exists r. split; [done|]. tauto.
    + intros (r' & [= <-] & H). rewrite !elem_of_cons, elem_of_nil. tauto.
  - split; [discriminate|]. intros (r & H & _). discriminate.
Qed.

Lemma pattern_found_signal (pg : page) (html : string) :
  content pg = Some html ->
  pattern_found html = true <-> text_signal pg.
Proof.
  intros Hc. unfold pattern_found, text_signal. rewrite existsb_elem_of. split.
  - intros (p & Hp & H). by exists html, p.
  - intros (h & p & Hh & Hp & H). rewrite Hc in Hh. injection Hh as <-.
    by exists p.
Qed.

Lemma half_missing_signal (cfg : selectors_config) (pg : page) :
  half_missing pg (block_indicators cfg) = true <-> selector_signal cfg pg.
Proof. unfold half_missing, selector_signal. apply Nat.leb_le. Qed.

Lemma title_suspicious_signal (pg : page) (t : string) :
  title pg = Some t ->
  title_suspicious t = true <-> title_signal pg.
Proof.
  intros Ht. unfold title_suspicious, title_signal. rewrite existsb_elem_of. split.
  - intros (w & Hw & H). by exists t, w.
  - intros (t' & w & Ht' & Hw & H). rewrite Ht in Ht'. injection Ht' as <-.
    by exists w.
Qed.

(** C4, as stated, fails: on a page whose content cannot be read the verdict
    is false although the title carries a suspicious keyword. *)
Lemma detect_block_not_any_signal :
  ~ (detect_block ∅ unreadable_page (Some (Response 200)) = true <->
     any_signal ∅ unreadable_page (Some (Response 200))).
Proof.
  intros [_ H].
  assert (Hs : any_signal ∅ unreadable_page (Some (Response 200))).
  { right; right; right. exists "차단", "차단". repeat split.
    unfold suspicious_title_words. set_solver. }
  specialize (H Hs). vm_compute in H. discriminate.
Qed.

(** C4 (amended): the verdict is true exactly when the HTTP status is 403,
    429 or 503, or the page content can be read and either it contains a
    block phrase (case-insensitively), or at least half of the block
    indicator selectors match nothing, or the title contains a suspicious
    keyword. *)
Theorem detect_block_verdict (cfg : selectors_config) (pg : page)
    (resp : option response) :
  detect_block cfg pg resp = true <->
  status_signal resp \/
  (is_Some (content pg) /\
   (text_signal pg \/ selector_signal cfg pg \/ title_signal pg)).
Proof.
  unfold detect_block. fold (block_indicators cfg).
  destruct (status_blocked resp) eqn:Hst.
  { split; [|done]. intros _. left. by apply status_blocked_signal. }
  assert (Hns : ~ status_signal resp).
  { intros H. apply status_blocked_signal in H. congruence. }
  destruct (content pg) as [html|] eqn:Hc.
  2:{ split; [discriminate|]. intros [H|[[x Hx] _]]; [done|discriminate]. }
  destruct (pattern_found html) eqn:Hp.
  { split; [|done]. intros _. right. split; [by eexists|]. left.
    by apply (pattern_found_signal pg html). }
  assert (Hnt : ~ text_signal pg).
  { intros H. apply (pattern_found_signal pg html) in H; congruence. }
  cbn zeta.
  destruct (half_missing pg (block_indicators cfg)) eqn:Hh.
  { split; [|done]. intros _. right. split; [by eexists|]. right; left.
    by apply half_missing_signal. }
  assert (Hnh : ~ selector_signal cfg pg).
  { intros H. apply half_missing_signal in H. congruence. }
  destruct (title pg) as [t|] eqn:Ht.
  - rewrite (title_suspicious_signal pg t Ht). split.
    + intros H. right. split; [by eexists|]. by right; right.
    + intros [H|[_ [H|[H|H]]]]; done.
  - split; [discriminate|].
    intros [H|[_ [H|[H|(t & w & H & _)]]]]; try done. congruence.
Qed.

(** C10, as stated, fails: when counting the selectors raises, the
    exception is caught but the verdict is true. *)
Lemma detect_block_count_raises_true :
  ~ (inspection_raises ∅ uncountable_page (Some (Response 200)) ->
     detect_block ∅ uncountable_page (Some (Response 200)) = false).
Proof.
  intros H.
  assert (Hr : inspection_raises ∅ uncountable_page (Some (Response 200))).
  { right; left. repeat split.
    - eexists. split; [reflexivity|]. vm_compute. reflexivity.
    - exists "#contents". split; [|reflexivity].
      unfold block_indicators, get_selectors. rewrite lookup_empty.
      unfold default_block_indicators. set_solver. }
  specialize (H Hr). vm_compute in H. discriminate.
Qed.

(** C10 (amended): when reading the page content raises, or reading the
    title raises, [detect_block] returns false; an exception raised while a
    selector is counted is caught as well, and that selector is counted as
    missing. *)
Theorem detect_block_inspection_failure (cfg : selectors_config) (pg : page)
    (resp : option response) :
  (content_raises pg resp \/ title_raises cfg pg resp ->
   detect_block cfg pg resp = false) /\
  (forall s, locator_count pg s = None -> selector_missing pg s = true).
Proof.
  split.
  - unfold detect_block. fold (block_indicators cfg).
    intros [[Hst Hc]|(Hst & (html & Hc & Hp) & Hh & Ht)].
    + by rewrite Hst, Hc.
    + rewrite Hst, Hc, Hp. cbn zeta. by rewrite Hh, Ht.
  - intros s Hs. unfold selector_missing. by rewrite Hs.
Qed.

Lemma detect_block_inspection_failure_witness :
  (content_raises unreadable_page (Some (Response 200)) /\
   detect_block ∅ unreadable_page (Some (Response 200)) = false) /\
  (title_raises ∅ untitled_page (Some (Response 200)) /\
   detect_block ∅ untitled_page (Some (Response 200)) = false) /\
  (locator_count uncountable_page "#contents" = None /\
   selector_missing uncountable_page "#contents" = true).
Proof.
  pose proof (detect_block_inspection_failure ∅ unreadable_page
                (Some (Response 200))) as [H1 _].
  pose proof (detect_block_inspection_failure ∅ untitled_page
                (Some (Response 200))) as [H2 _].
  pose proof (detect_block_inspection_failure ∅ uncountable_page
                (Some (Response 200))) as [_ H3].
  assert (Hc : content_raises unreadable_page (Some (Response 200))).
  { split; reflexivity. }
  assert (Ht : title_raises ∅ untitled_page (Some (Response 200))).
  { repeat split. eexists. split; [reflexivity|]. vm_compute. reflexivity. }
  split; [|split].
  - split; [exact Hc|]. apply H1. by left.
  - split; [exact Ht|]. apply H2. by right.
  - split; [reflexivity|]. apply H3. reflexivity.
Defined.

End BlockDetectFacts.

(** ** Validation: identifying the error records *)

Module IdentifyFacts.
Import Frame Validator Aux.

Lemma mask_or_map {A} (f g : A -> bool) (l : list A) :
  mask_or (map f l) (map g l) = map (fun x => f x || g x) l.
Proof. unfold mask_or. induction l as [|x l IH]; simpl; congruence. Qed.

Lemma select_rows_map (g : pydict -> bool) (rs : list pydict) :
  select_rows (map g rs) rs = filter (fun r => g r = true) rs.
Proof.
  induction rs as [|r rs IH]; [done|]. simpl.
  destruct (g r) eqn:Hg.
  - rewrite filter_cons_True by done. by rewrite IH.
  - rewrite filter_cons_False by congruence. done.
Qed.

Lemma filter_none {A} (P : A -> Prop) `{forall x, Decision (P x)} (l : list A) :
  (forall x, ~ P x) -> filter P l = [].
Proof.
  intros HP. induction l as [|x l IH]; [done|].
  rewrite filter_cons_False; auto.
Qed.

Lemma identify_rows (df : DataFrame) :
  rows (_identify_error_records df) = filter (is_error_record df) (rows df).
Proof.
  unfold _identify_error_records, error_conditions, critical_fields, has_column,
    series.
  simpl flat_map.
  repeat case_bool_decide; simpl;
    rewrite ?map_map, ?mask_or_map, ?select_rows_map;
    try (symmetry; apply filter_none; intros r; unfold is_error_record; tauto);
    apply list_filter_iff; intros r; unfold is_error_record;
    rewrite ?orb_true_iff, ?cell_eqb_str; tauto.
Qed.

(** C1: the rows [_identify_error_records] selects are exactly the rows
    whose ERROR column is set (non-null) or whose PRICE, ORIGIN_PRICE or
    COUPANG_PROD_NAME equals "NA", each test restricted to the columns the
    dataframe has, in their order; every other row is left out, so it is
    never handed to the re-crawl. *)
Theorem identify_error_records_exact (df : DataFrame) :
  rows (_identify_error_records df) = filter (is_error_record df) (rows df) /\
  forall row, row ∈ rows (_identify_error_records df) <->
              row ∈ rows df /\ is_error_record df row.
Proof.
  split; [apply identify_rows|].
  intros row. rewrite identify_rows, list_elem_of_filter. tauto.
Qed.

End IdentifyFacts.

(** ** Validation of a store without error records *)

Module ValidateFacts.
Import Frame Browser Checkpoint Visit Validator Aux Samples IdentifyFacts.

Lemma read_excel_exists (env : environment) (fs : filesystem) (p : string)
    (df : DataFrame) :
  read_excel env fs p = Some df -> exists_file env fs p = true.
Proof.
  unfold read_excel, exists_file. intros H. apply bool_decide_eq_true.
  destruct (fs !! resolve env p) as [d|]; [by eexists|discriminate].
Qed.

Lemma read_cell_idemp (c : cell) : read_cell (read_cell c) = read_cell c.
Proof.
  destruct c as [| |n|s]; simpl; try done.
  destruct (bool_decide (s ∈ na_values)) eqn:H; simpl; [done|]. by rewrite H.
Qed.

Lemma read_row_idemp (r : pydict) : read_row (read_row r) = read_row r.
Proof.
  unfold read_row. rewrite <- map_fmap_compose. apply map_fmap_ext.
  intros k c _. apply read_cell_idemp.
Qed.

Lemma read_frame_idemp (df : DataFrame) :
  read_frame (read_frame df) = read_frame df.
Proof.
  unfold read_frame. simpl. f_equal. rewrite <- list_fmap_compose.
  apply list_fmap_ext. intros i r _. apply read_row_idemp.
Qed.

(** A frame that was read is read back as it is. *)
Lemma read_excel_read (env : environment) (fs : filesystem) (p : string)
    (df : DataFrame) :
  read_excel env fs p = Some df -> read_frame df = df.
Proof.
  unfold read_excel. intros H.
  destruct (fs !! resolve env p) as [[st|df0]|]; try discriminate.
  injection H as <-. apply read_frame_idemp.
Qed.

Lemma read_excel_to_excel (env : environment) (fs : filesystem) (p : string)
    (df : DataFrame) :
  read_excel env (to_excel env fs p df) p = Some (read_frame df).
Proof. unfold read_excel, to_excel. by rewrite lookup_insert_eq. Qed.

Lemma at_col_read_row (r : pydict) (col : string) :
  at_col (read_row r) col = read_cell (at_col r col).
Proof.
  unfold at_col, read_row. rewrite lookup_fmap.
  by destruct (r !! col).
Qed.



(** C8: a store without error records whose AC_PRICE cell holds the text
    "NA" (what the crawler writes for a product without AppleCare).  Neither
    the workbook as it is stored nor the store as it is read has an error
    record; the validation re-crawls nothing and returns True,
    and the validated file it writes is not identical to the input store:
    the cell that holds "NA" in the input is empty in the validated copy,
    because the store went through [pd.read_excel]. *)
Theorem validated_copy_blanks_na :
  let result_file := "RAW/2025-04-25_coupang_results.xlsx" in
  let v := validate_and_recrawl sample_env ∅ good_web clean_files result_file 5 in
  clean_files !! resolve sample_env result_file = Some (DocFrame clean_store) /\
  rows (_identify_error_records clean_store) = [] /\
  rows (_identify_error_records (read_frame clean_store)) = [] /\
  succeeded v = true /\
  recrawled v = [] /\
  exists validated,
    files_after v
      !! resolve sample_env "RAW/2025-04-25_coupang_results_validated.xlsx"
      = Some (DocFrame validated) /\
    validated <> clean_store /\
    series clean_store "AC_PRICE" = [CStr "NA"] /\
    series validated "AC_PRICE" = [CNaN].
Proof.
  cbn zeta. split; [vm_compute; reflexivity|].
  split; [vm_compute; reflexivity|].
  split; [vm_compute; reflexivity|]. split; [vm_compute; reflexivity|].
  split; [vm_compute; reflexivity|].
  exists (read_frame clean_store). split; [vm_compute; reflexivity|].
  split; [|split; vm_compute; reflexivity].
  intros H. apply (f_equal (fun df => series df "AC_PRICE")) in H.
  vm_compute in H. discriminate.
Qed.

End ValidateFacts.

(** ** Validation: merging the re-crawled results *)

Module MergeFacts.
Import Frame Validator Aux Samples.

Lemma zip_with_keep {A} (mask : list bool) (l : list A) :
  length l <= length mask ->
  zip_with (fun (m : bool) x => if m then x else x) mask l = l.
Proof.
  revert mask. induction l as [|x l IH]; intros [|m mask] Hlen; simpl in *;
    try done; try lia.
  rewrite IH by lia. by destruct m.
Qed.

Lemma zip_with_twice {A} (f g : bool -> A -> A) (mask : list bool) (l : list A) :
  zip_with f mask (zip_with g mask l) = zip_with (fun m x => f m (g m x)) mask l.
Proof.
  revert l. induction mask as [|m mask IH]; intros [|x l]; simpl; try done.
  by rewrite IH.
Qed.

Lemma zip_with_map_same {A B} (f : A -> bool) (g : bool -> A -> B) (l : list A) :
  zip_with g (map f l) l = map (fun x => g (f x) x) l.
Proof. induction l as [|x l IH]; simpl; congruence. Qed.

Lemma mask_any_false {A} (f : A -> bool) (l : list A) :
  mask_any (map f l) = false -> forall x, x ∈ l -> f x = false.
Proof.
  unfold mask_any. induction l as [|y l IH]; simpl; intros H x Hx.
  - by apply elem_of_nil in Hx.
  - apply orb_false_iff in H as [Hy Hl].
    apply elem_of_cons in Hx as [->|Hx]; auto.
Qed.

(** The field-writing step commutes on distinct columns. *)
Lemma write_step_comm (cols : gset string) (j1 j2 : string) (z1 z2 : cell)
    (y : pydict) :
  j1 <> j2 ->
  (if bool_decide (j1 ∈ cols) then <[j1 := z1]>
     (if bool_decide (j2 ∈ cols) then <[j2 := z2]> y else y)
   else (if bool_decide (j2 ∈ cols) then <[j2 := z2]> y else y)) =
  (if bool_decide (j2 ∈ cols) then <[j2 := z2]>
     (if bool_decide (j1 ∈ cols) then <[j1 := z1]> y else y)
   else (if bool_decide (j1 ∈ cols) then <[j1 := z1]> y else y)).
Proof.
  intros Hne. repeat case_bool_decide; try done. by apply insert_insert_ne.
Qed.

Lemma write_fields_insert (cols : gset string) (r row : pydict) (col : string)
    (v : cell) :
  r !! col = None ->
  write_fields cols (<[col := v]> r) row =
  if bool_decide (col ∈ cols) then <[col := v]> (write_fields cols r row)
  else write_fields cols r row.
Proof.
  intros Hnone. unfold write_fields.
  rewrite map_fold_insert_L; [done| |done].
  intros j1 j2 z1 z2 y Hne _ _. by apply write_step_comm.
Qed.

(** The cells of a row after its fields were written. *)
Lemma write_fields_lookup (cols : gset string) (r row : pydict) (col : string) :
  write_fields cols r row !! col =
  if bool_decide (col ∈ cols)
  then match r !! col with Some v => Some v | None => row !! col end
  else row !! col.
Proof.
  unfold write_fields.
  apply (map_fold_weak_ind
           (fun acc m => acc !! col =
              if bool_decide (col ∈ cols)
              then match m !! col with Some v => Some v | None => row !! col end
              else row !! col)).
  - rewrite lookup_empty. by case_bool_decide.
  - intros i x m acc Hi IH.
    destruct (decide (i = col)) as [->|Hne].
    + rewrite lookup_insert_eq. case_bool_decide.
      * by rewrite lookup_insert_eq.
      * done.
    + rewrite (lookup_insert_ne m) by done.
      destruct (bool_decide (i ∈ cols)); [|done]. by rewrite lookup_insert_ne.
Qed.

Lemma merge_row_lookup (cols : gset string) (r row : pydict) (col : string) :
  merge_row cols r row !! col =
  if bool_decide (col = "ERROR" /\ "ERROR" ∈ cols) then Some CNone
  else if bool_decide (col ∈ cols)
       then match r !! col with Some v => Some v | None => row !! col end
       else row !! col.
Proof.
  unfold merge_row. cbn zeta.
  destruct (decide (col = "ERROR")) as [->|Hne].
  - destruct (decide ("ERROR" ∈ cols)) as [He|He].
    + rewrite !bool_decide_eq_true_2 by done. by rewrite lookup_insert_eq.
    + rewrite (bool_decide_eq_false_2 ("ERROR" ∈ cols)) by done.
      rewrite bool_decide_eq_false_2 by tauto.
      rewrite write_fields_lookup. by rewrite bool_decide_eq_false_2.
  - rewrite (bool_decide_eq_false_2 (col = "ERROR" /\ _)) by tauto.
    destruct (bool_decide ("ERROR" ∈ cols)).
    + rewrite lookup_insert_ne by done. apply write_fields_lookup.
    + apply write_fields_lookup.
Qed.

Lemma merge_row_idempotent (cols : gset string) (r row : pydict) :
  merge_row cols r (merge_row cols r row) = merge_row cols r row.
Proof.
  apply map_eq. intros col. rewrite !merge_row_lookup.
  repeat case_bool_decide; try done. by destruct (r !! col).
Qed.

Lemma zip_with_same_ext {A B C} (f g : A -> B -> C) (l : list A) (k : list B) :
  (forall a b, f a b = g a b) -> zip_with f l k = zip_with g l k.
Proof.
  intros H. revert k. induction l as [|a l IH]; intros [|b k]; simpl; try done.
  by rewrite H, IH.
Qed.

(** [overwrite] rewrites every masked row with [merge_row]. *)
Lemma overwrite_rows (df : DataFrame) (mask : list bool) (r : pydict) :
  length (rows df) <= length mask ->
  columns (overwrite df mask r) = columns df /\
  rows (overwrite df mask r) =
    zip_with (fun (m : bool) row => if m then merge_row (columns df) r row else row)
             mask (rows df).
Proof.
  intros Hlen. unfold overwrite.
  set (f := fun col value acc =>
              if has_column df col then loc_set mask col value acc else acc).
  assert (H1 : columns (map_fold f df r) = columns df /\
               rows (map_fold f df r) =
               zip_with (fun (m : bool) row =>
                           if m then write_fields (columns df) r row else row)
                        mask (rows df)).
  { apply (map_fold_weak_ind
             (fun acc m => columns acc = columns df /\
                rows acc = zip_with (fun (b : bool) row =>
                    if b then write_fields (columns df) m row else row)
                  mask (rows df))).
    - split; [done|]. symmetry.
      erewrite zip_with_same_ext; [by apply zip_with_keep|].
      intros [] row; [|done]. unfold write_fields. by rewrite map_fold_empty.
    - intros i x m acc Hi [IHc IHr]. unfold f, has_column.
      destruct (bool_decide (i ∈ columns df)) eqn:Hin.
      + split; [done|]. simpl. rewrite IHr, zip_with_twice.
        apply zip_with_same_ext. intros [] row; [|done].
        by rewrite write_fields_insert, Hin.
      + split; [done|]. rewrite IHr. apply zip_with_same_ext.
        intros [] row; [|done]. by rewrite write_fields_insert, Hin. }
  destruct H1 as [Hc Hr]. unfold has_column.
  destruct (bool_decide ("ERROR" ∈ columns df)) eqn:He.
  - split; [done|]. simpl. rewrite Hr, zip_with_twice.
    apply zip_with_same_ext. intros [] row; [|done].
    unfold merge_row. by rewrite He.
  - split; [done|]. rewrite Hr. apply zip_with_same_ext.
    intros [] row; [|done]. unfold merge_row. by rewrite He.
Qed.

(** One turn of the merge loop acts row by row. *)
Lemma update_record_rows (df df' : DataFrame) (r : pydict) :
  update_record df r = Some df' ->
  columns df' = columns df /\
  rows df' = map (update_row (columns df) r) (rows df).
Proof.
  unfold update_record, update_row.
  destruct (r !! "ORIGINAL_INDEX") as [idx|] eqn:Hidx.
  2:{ intros [= <-]. split; [done|]. by rewrite map_id. }
  destruct (is_none idx) eqn:Hnone.
  { intros [= <-]. split; [done|]. destruct idx; try discriminate.
    rewrite <- (map_id (rows df)) at 1. apply map_ext. intros row.
    by destruct (at_col row "ORIGINAL_INDEX"). }
  destruct (has_column df "ORIGINAL_INDEX"); [|discriminate].
  unfold index_mask, series.
  destruct (mask_any _) eqn:Hany.
  2:{ intros [= <-]. split; [done|].
      rewrite map_map in Hany.
      pose proof (mask_any_false _ _ Hany) as Hall.
      rewrite <- (map_id (rows df)) at 1.
      apply map_ext_in. intros row Hrow. apply list_elem_of_In in Hrow.
      by rewrite (Hall row Hrow). }
  destruct (has_error_marker r) eqn:Herr.
  { intros [= <-]. split; [done|].
    rewrite <- (map_id (rows df)) at 1. apply map_ext. intros row.
    by rewrite andb_false_r. }
  intros [= <-].
  destruct (overwrite_rows df
              (map (fun c => cell_eqb c idx)
                   (map (fun r0 => at_col r0 "ORIGINAL_INDEX") (rows df))) r)
    as [Hc Hr].
  { by rewrite !length_map. }
  split; [done|]. rewrite Hr, map_map, zip_with_map_same.
  apply map_ext. intros row. by rewrite andb_true_r.
Qed.

(** The whole merge acts row by row. *)
Lemma update_dataframe_rows (fixed_records : list pydict) (df df' : DataFrame) :
  _update_dataframe df fixed_records = Some df' ->
  columns df' = columns df /\
  rows df' =
    map (fun row => foldl (fun acc r => update_row (columns df) r acc)
                          row fixed_records)
        (rows df).
Proof.
  revert df. induction fixed_records as [|r rs IH]; intros df; simpl.
  - intros [= <-]. split; [done|]. by rewrite map_id.
  - destruct (update_record df r) as [df1|] eqn:H1; [|discriminate].
    intros H. apply update_record_rows in H1 as [Hc1 Hr1].
    apply IH in H as [Hc Hr]. split; [congruence|].
    rewrite Hr, Hr1, map_map, Hc1. done.
Qed.

(** The merge never fails on a store that has the index column. *)
Lemma update_dataframe_total (fixed_records : list pydict) (df : DataFrame) :
  has_column df "ORIGINAL_INDEX" = true ->
  is_Some (_update_dataframe df fixed_records).
Proof.
  revert df. induction fixed_records as [|r rs IH]; intros df Hcol; simpl.
  - by eexists.
  - destruct (update_record df r) as [df1|] eqn:H1.
    + apply IH. apply update_record_rows in H1 as [Hc _].
      unfold has_column in *. by rewrite Hc.
    + exfalso. unfold update_record in H1. rewrite Hcol in H1.
      repeat (destruct (_ : option cell) in H1 ||
              destruct (_ : bool) in H1); discriminate.
Qed.

Lemma update_row_cases (cols : gset string) (r row : pydict) :
  (has_error_marker r = false /\ corresponds row r /\
   update_row cols r row = merge_row cols r row) \/
  ((has_error_marker r = true \/ ~ corresponds row r) /\
   update_row cols r row = row).
Proof.
  unfold update_row, corresponds.
  destruct (r !! "ORIGINAL_INDEX") as [idx|] eqn:Hidx.
  - destruct (cell_eqb (at_col row "ORIGINAL_INDEX") idx) eqn:Heq;
      destruct (has_error_marker r) eqn:Herr; simpl.
    + right. split; [by left|done].
    + left. repeat split; try done. by exists idx.
    + right. split; [by left|done].
    + right. split; [|done]. right. intros (idx' & [= <-] & H). congruence.
  - right. split; [|done]. right. intros (idx' & H & _). discriminate.
Qed.

(** The merge never changes the index a row is matched by. *)
Lemma merge_row_index (cols : gset string) (r row : pydict) :
  corresponds row r ->
  at_col (merge_row cols r row) "ORIGINAL_INDEX" = at_col row "ORIGINAL_INDEX".
Proof.
  intros (idx & Hidx & Heq). apply cell_eqb_eq in Heq.
  unfold at_col at 1. rewrite merge_row_lookup.
  rewrite bool_decide_eq_false_2 by (intros [? _]; discriminate).
  case_bool_decide; [|done]. by rewrite Hidx.
Qed.

Lemma corresponds_merge_row (cols : gset string) (r r' row : pydict) :
  corresponds row r ->
  corresponds (merge_row cols r row) r' <-> corresponds row r'.
Proof.
  intros Hr. unfold corresponds. by rewrite (merge_row_index cols r row Hr).
Qed.

(** A row that no error-free result corresponds to comes out unchanged. *)
Lemma merge_frame (cols : gset string) (rs : list pydict) (row : pydict) :
  (forall r, r ∈ rs -> has_error_marker r = false -> ~ corresponds row r) ->
  foldl (fun acc r => update_row cols r acc) row rs = row.
Proof.
  induction rs as [|r rs IH]; intros H; [done|]. simpl.
  destruct (update_row_cases cols r row) as [(He & Hc & _)|[_ ->]].
  - exfalso. apply (H r); [by left|done|done].
  - apply IH. intros r' Hr'. apply H. by right.
Qed.

(** Once merged with [r], a row stays so while [r] is the only error-free
    result that corresponds to it. *)
Lemma merge_stable (cols : gset string) (rs : list pydict) (r row : pydict) :
  corresponds row r ->
  (forall r', r' ∈ rs -> has_error_marker r' = false -> corresponds row r' ->
              r' = r) ->
  foldl (fun acc r' => update_row cols r' acc) (merge_row cols r row) rs =
  merge_row cols r row.
Proof.
  intros Hr. induction rs as [|r' rs IH]; intros H; [done|]. simpl.
  destruct (update_row_cases cols r' (merge_row cols r row))
    as [(He & Hc & ->)|[_ ->]].
  - apply (corresponds_merge_row cols r r' row Hr) in Hc.
    rewrite (H r') by (done || by left).
    rewrite merge_row_idempotent. apply IH. intros r'' Hr''. apply H. by right.
  - apply IH. intros r'' Hr''. apply H. by right.
Qed.

Lemma merge_overwrites (cols : gset string) (rs : list pydict) (r row : pydict) :
  r ∈ rs -> has_error_marker r = false -> corresponds row r ->
  (forall r', r' ∈ rs -> has_error_marker r' = false -> corresponds row r' ->
              r' = r) ->
  foldl (fun acc r' => update_row cols r' acc) row rs = merge_row cols r row.
Proof.
  intros Hin He Hc. induction rs as [|r' rs IH]; intros H.
  - by apply elem_of_nil in Hin.
  - simpl. destruct (update_row_cases cols r' row) as [(He' & Hc' & ->)|[Hno ->]].
    + rewrite (H r') by (done || by left).
      apply merge_stable; [done|]. intros r'' Hr''. apply H. by right.
    + apply elem_of_cons in Hin as [->|Hin].
      * destruct Hno as [Hno|Hno]; [congruence|done].
      * apply IH; [done|]. intros r'' Hr''. apply H. by right.
Qed.

(** C7, as stated, fails: when two rows of the store carry the same
    ORIGINAL_INDEX and the re-crawl of one succeeds while the other fails,
    the successful result overwrites both rows, the one of the failed
    re-crawl included. *)
Lemma merge_overwrites_failed_row :
  ~ merge_keeps_failed_rows twice_failed_store mixed_recrawl.
Proof.
  intros H.
  destruct (_update_dataframe twice_failed_store mixed_recrawl) as [df'|] eqn:Hm;
    [|vm_compute in Hm; discriminate].
  specialize (H df' recrawl_still_failed 1%nat
                (failed_row "net::ERR_CONNECTION_RESET") Hm).
  assert (Hrow : rows df' !! 1%nat = Some (failed_row "net::ERR_CONNECTION_RESET")).
  { apply H.
    - unfold mixed_recrawl. apply elem_of_cons. right. by apply elem_of_cons; left.
    - vm_compute. reflexivity.
    - reflexivity.
    - exists (CInt 7). split; vm_compute; reflexivity. }
  vm_compute in Hm. injection Hm as <-. vm_compute in Hrow. discriminate.
Qed.

(** The re-crawled results of that counterexample are the ones the re-crawl
    of the store produces on [mixed_web]. *)
Lemma mixed_recrawl_produced :
  _recrawl_error_urls sample_env ∅ mixed_web
    (_identify_error_records twice_failed_store) 5 =
  (Some mixed_recrawl,
   [CStr "https://www.coupang.com/vp/products/7";
    CStr "https://www.coupang.com/vp/products/7"]).
Proof. vm_compute. reflexivity. Qed.

(** C7 (amended): merging a result that carries an error marker changes
    nothing in the store.  Over the whole merge, a row whose ORIGINAL_INDEX
    no error-free result carries comes out identical to its pre-recrawl
    value; a row whose ORIGINAL_INDEX one error-free result carries (and no
    other) has every column the result names overwritten with the result's
    value and its ERROR column set to null, its other cells unchanged.  The
    merge never fails on a store with an ORIGINAL_INDEX column. *)
Theorem update_dataframe_merge (df : DataFrame) (fixed_records : list pydict) :
  (forall r, has_error_marker r = true ->
             has_column df "ORIGINAL_INDEX" = true ->
             update_record df r = Some df) /\
  (has_column df "ORIGINAL_INDEX" = true ->
   is_Some (_update_dataframe df fixed_records)) /\
  (forall df' r i row,
     _update_dataframe df fixed_records = Some df' ->
     r ∈ fixed_records -> rows df !! i = Some row -> corresponds row r ->
     (has_error_marker r = true ->
      (forall r', r' ∈ fixed_records -> has_error_marker r' = false ->
                  ~ corresponds row r') ->
      rows df' !! i = Some row) /\
     (has_error_marker r = false ->
      (forall r', r' ∈ fixed_records -> has_error_marker r' = false ->
                  corresponds row r' -> r' = r) ->
      exists row',
        rows df' !! i = Some row' /\
        (forall col v, col ∈ columns df -> col <> "ERROR" ->
                       r !! col = Some v -> row' !! col = Some v) /\
        ("ERROR" ∈ columns df -> row' !! "ERROR" = Some CNone) /\
        (forall col, col <> "ERROR" \/ "ERROR" ∉ columns df ->
                     col ∉ columns df \/ r !! col = None ->
                     row' !! col = row !! col))).
Proof.
  split; [|split].
  - intros r Herr Hcol. unfold update_record. rewrite Hcol, Herr.
    destruct (r !! "ORIGINAL_INDEX") as [idx|]; [|done].
    destruct (is_none idx); [done|]. by destruct (mask_any _).
  - apply update_dataframe_total.
  - intros df' r i row Hm Hin Hrow Hc.
    apply update_dataframe_rows in Hm as [_ Hr]. split.
    + intros _ Hfree. rewrite Hr, list_lookup_fmap, Hrow. simpl.
      by rewrite merge_frame.
    + intros Herr Huniq. exists (merge_row (columns df) r row).
      split; [|split; [|split]].
      * rewrite Hr, list_lookup_fmap, Hrow. simpl.
        by rewrite (merge_overwrites (columns df) fixed_records r row).
      * intros col v Hcol Hne Hv. rewrite merge_row_lookup.
        rewrite bool_decide_eq_false_2 by tauto.
        rewrite bool_decide_eq_true_2 by done. by rewrite Hv.
      * intros He. rewrite merge_row_lookup.
        by rewrite bool_decide_eq_true_2.
      * intros col Hne Hno. rewrite merge_row_lookup.
        rewrite bool_decide_eq_false_2 by tauto.
        case_bool_decide; [|done].
        destruct Hno as [Hno|Hno]; [done|]. by rewrite Hno.
Qed.

Lemma update_dataframe_merge_witness :
  update_record twice_failed_store recrawl_still_failed = Some twice_failed_store /\
  (exists df',
     _update_dataframe twice_failed_store [recrawl_still_failed] = Some df' /\
     rows df' !! 1%nat = Some (failed_row "net::ERR_CONNECTION_RESET")) /\
  (exists df' row',
     _update_dataframe twice_failed_store [recrawl_fixed] = Some df' /\
     rows df' !! 0%nat = Some row' /\
     row' !! "PRICE" = Some (CInt 1350000) /\
     row' !! "ERROR" = Some CNone /\
     row' !! "URL" = Some (CStr "https://www.coupang.com/vp/products/7")).
Proof.
  assert (Hcorr : forall e r,
            r !! "ORIGINAL_INDEX" = Some (CInt 7) -> corresponds (failed_row e) r).
  { intros e r Hr. exists (CInt 7). split; [done|]. vm_compute. reflexivity. }
  split; [|split].
  - apply (update_dataframe_merge twice_failed_store []); vm_compute; reflexivity.
  - destruct (update_dataframe_merge twice_failed_store [recrawl_still_failed])
      as (_ & Htot & Hmerge).
    destruct (Htot eq_refl) as [df' Hdf']. exists df'. split; [done|].
    apply (Hmerge df' recrawl_still_failed 1%nat
             (failed_row "net::ERR_CONNECTION_RESET")); try done.
    + by apply list_elem_of_singleton.
    + by apply Hcorr.
    + intros r' Hr' Hfree. apply list_elem_of_singleton in Hr'. subst r'.
      vm_compute in Hfree. discriminate.
  - destruct (update_dataframe_merge twice_failed_store [recrawl_fixed])
      as (_ & Htot & Hmerge).
    destruct (Htot eq_refl) as [df' Hdf'].
    destruct (Hmerge df' recrawl_fixed 0%nat (failed_row "Timeout 60000ms exceeded"))
      as [_ Hover]; try done.
    + by apply list_elem_of_singleton.
    + by apply Hcorr.
    + destruct Hover as (row' & Hrow' & Hcols & Herr & Hrest).
      * vm_compute. reflexivity.
      * intros r' Hr' _ _. by apply list_elem_of_singleton in Hr'.
      * exists df', row'. repeat split; try done.
        -- apply Hcols; [|done|vm_compute; reflexivity].
           apply (bool_decide_unpack _). vm_compute. exact I.
        -- apply Herr. apply (bool_decide_unpack _). vm_compute. exact I.
        -- apply Hcols; [|done|vm_compute; reflexivity].
           apply (bool_decide_unpack _). vm_compute. exact I.
Defined.

End MergeFacts.

(** ** The crawl: start index, batches, checkpoints *)

Module CrawlerFacts.
Import Frame Browser Checkpoint Extract Visit BlockDetect Validator Crawler.
Import Aux Samples.



(** *** [range] *)

Lemma range_nil (a b : Z) : (b <= a)%Z -> range a b = [].
Proof.
  intros H. unfold range. replace (Z.to_nat (b - a)) with 0%nat by lia. done.
Qed.

Lemma range_cons (a b : Z) : (a < b)%Z -> range a b = a :: range (a + 1) b.
Proof.
  intros H. unfold range.
  replace (Z.to_nat (b - a)) with (S (Z.to_nat (b - (a + 1)))) by lia.
  simpl. f_equal; [lia|].
  rewrite <- fmap_S_seq. rewrite <- list_fmap_compose.
  apply list_fmap_ext. intros _ i _. simpl. lia.
Qed.

Lemma elem_of_range (a b idx : Z) : idx ∈ range a b <-> (a <= idx < b)%Z.
Proof.
  unfold range. rewrite list_elem_of_fmap. split.
  - intros (i & -> & Hi). apply elem_of_seq in Hi. lia.
  - intros H. exists (Z.to_nat (idx - a)). split; [lia|].
    apply elem_of_seq. lia.
Qed.

Lemma length_range (a b : Z) : length (range a b) = Z.to_nat (b - a).
Proof. unfold range. by rewrite length_map, length_seq. Qed.

Lemma range_split (a i b : Z) :
  (a <= i < b)%Z -> range a b = (range a i ++ i :: range (i + 1) b)%list.
Proof.
  intros H. remember (Z.to_nat (i - a)) as n eqn:Hn.
  revert a H Hn. induction n as [|n IH]; intros a H Hn.
  - assert (a = i) as -> by lia.
    rewrite (range_nil i i) by lia. simpl. apply range_cons. lia.
  - rewrite (range_cons a b) by lia. rewrite (range_cons a i) by lia.
    simpl. f_equal. apply IH; lia.
Qed.

(** *** The record loop of a batch *)

Section Batch.
Variables (env : environment) (cfg : selectors_config) (wb : web).
Variables (df : DataFrame) (batch_start start_index : Z).

Let row_at (idx : Z) : option pydict :=
  row_of env cfg wb df start_index idx.

(** The loop's own bound check lets the record through. *)
Let admitted (idx : Z) : Prop :=
  (idx - batch_start < Z.of_nat (length (rows df)))%Z.

Lemma batch_loop_unblocked (idxs : list Z) (st : statistics)
    (results : list pydict) :
  (forall idx, idx ∈ idxs -> admitted idx) ->
  (forall idx, idx ∈ idxs ->
     exists o, visit_record env cfg wb df start_index idx = Some o /\ o <> Blocked) ->
  exists rs st',
    batch_loop env cfg wb df batch_start start_index idxs st results
      = Some (mkBatchResult false (results ++ rs) None, st') /\
    Forall2 (fun idx row => row_at idx = Some row) idxs rs /\
    processed_urls st' = (processed_urls st + Z.of_nat (length idxs))%Z.
Proof.
  revert st results. induction idxs as [|idx idxs IH]; intros st results Hadm Hok.
  - exists [], st. simpl. rewrite app_nil_r. repeat split; [constructor|lia].
  - simpl. rewrite (proj2 (Z.leb_gt _ _)) by (apply Hadm; by left).
    destruct (Hok idx) as (o & Ho & Hnb); [by left|]. rewrite Ho.
    destruct o as [d|d|]; [| |done].
    + destruct (IH (count_success (count_processed st)) (results ++ [d])%list)
        as (rs & st' & Hrun & Hrows & Hcount).
      { intros i Hi. apply Hadm. by right. }
      { intros i Hi. apply Hok. by right. }
      exists (d :: rs), st'. rewrite Hrun, <- app_assoc. simpl.
      repeat split.
      * constructor; [|done]. unfold row_at, row_of. by rewrite Ho.
      * rewrite Hcount. simpl. lia.
    + destruct (IH (count_fail (count_processed st)) (results ++ [d])%list)
        as (rs & st' & Hrun & Hrows & Hcount).
      { intros i Hi. apply Hadm. by right. }
      { intros i Hi. apply Hok. by right. }
      exists (d :: rs), st'. rewrite Hrun, <- app_assoc. simpl.
      repeat split.
      * constructor; [|done]. unfold row_at, row_of. by rewrite Ho.
      * rewrite Hcount. simpl. lia.
Qed.

Lemma batch_loop_blocked (before : list Z) (idx : Z) (after : list Z)
    (st : statistics) (results : list pydict) :
  (forall i, i ∈ before -> admitted i) ->
  (forall i, i ∈ before ->
     exists o, visit_record env cfg wb df start_index i = Some o /\ o <> Blocked) ->
  admitted idx ->
  visit_record env cfg wb df start_index idx = Some Blocked ->
  exists rs st',
    batch_loop env cfg wb df batch_start start_index
      (before ++ idx :: after) st results
      = Some (mkBatchResult true (results ++ rs) (Some (idx - batch_start)%Z), st') /\
    Forall2 (fun i row => row_at i = Some row) before rs /\
    processed_urls st' = (processed_urls st + Z.of_nat (length before) + 1)%Z /\
    block_count st' = (block_count st + 1)%Z.
Proof.
  revert st results.
  induction before as [|i before IH]; intros st results Hadm Hok Hidx Hblock.
  - exists [], (count_block (count_processed st)). simpl.
    rewrite (proj2 (Z.leb_gt _ _)) by done. rewrite Hblock, app_nil_r.
    repeat split; [constructor|simpl; lia].
  - simpl. rewrite (proj2 (Z.leb_gt _ _)) by (apply Hadm; by left).
    destruct (Hok i) as (o & Ho & Hnb); [by left|]. rewrite Ho.
    destruct o as [d|d|]; [| |done].
    + destruct (IH (count_success (count_processed st)) (results ++ [d])%list)
        as (rs & st' & Hrun & Hrows & Hcount & Hbc); try done.
      { intros j Hj. apply Hadm. by right. }
      { intros j Hj. apply Hok. by right. }
      exists (d :: rs), st'. rewrite Hrun, <- app_assoc. simpl.
      repeat split.
      * constructor; [|done]. unfold row_at, row_of. by rewrite Ho.
      * rewrite Hcount. simpl. lia.
      * rewrite Hbc. done.
    + destruct (IH (count_fail (count_processed st)) (results ++ [d])%list)
        as (rs & st' & Hrun & Hrows & Hcount & Hbc); try done.
      { intros j Hj. apply Hadm. by right. }
      { intros j Hj. apply Hok. by right. }
      exists (d :: rs), st'. rewrite Hrun, <- app_assoc. simpl.
      repeat split.
      * constructor; [|done]. unfold row_at, row_of. by rewrite Ho.
      * rewrite Hcount. simpl. lia.
      * rewrite Hbc. done.
Qed.

End Batch.

Lemma visit_record_in_range (env : environment) (cfg : selectors_config)
    (wb : web) (df : DataFrame) (start_index idx : Z) :
  (0 <= idx < Z.of_nat (length (rows df)))%Z ->
  has_column df "URL" = true ->
  is_Some (visit_record env cfg wb df start_index idx).
Proof.
  intros Hidx Hurl. unfold visit_record, iloc.
  rewrite (proj2 (Z.ltb_ge _ _)) by lia.
  destruct (rows df !! Z.to_nat idx) as [row|] eqn:Hrow.
  - rewrite Hurl. simpl. by eexists.
  - apply lookup_ge_None in Hrow. lia.
Qed.

(** A batch inside the window: the records before the first block each
    append one row, in order; the blocked record and those after it append
    none. *)
Lemma process_batch_rows (env : environment) (cfg : selectors_config)
    (wb : web) (df : DataFrame) (batch_start batch_end start_index : Z)
    (st : statistics) (n : Z) :
  (0 <= batch_start)%Z ->
  (batch_end <= Z.of_nat (length (rows df)))%Z ->
  has_column df "URL" = true ->
  (0 <= n <= batch_end - batch_start)%Z ->
  (forall j, (0 <= j < n)%Z ->
     visit_record env cfg wb df start_index (batch_start + j) <> Some Blocked) ->
  ((batch_start + n = batch_end)%Z \/
   visit_record env cfg wb df start_index (batch_start + n) = Some Blocked) ->
  exists rs st',
    _process_batch env cfg wb df batch_start batch_end st start_index
      = Some (mkBatchResult (negb (batch_start + n =? batch_end)%Z) rs
                (if (batch_start + n =? batch_end)%Z then None else Some n),
              st') /\
    Forall2 (fun idx row => row_of env cfg wb df start_index idx = Some row)
            (range batch_start (batch_start + n)) rs /\
    processed_urls st' =
      (processed_urls st + n + (if (batch_start + n =? batch_end)%Z then 0 else 1))%Z.
Proof.
  intros Hbs Hbe Hurl Hn Hfree Hstop. unfold _process_batch.
  assert (Hadm : forall idx, (batch_start <= idx < batch_end)%Z ->
                   (idx - batch_start < Z.of_nat (length (rows df)))%Z) by lia.
  assert (Hsome : forall idx, (batch_start <= idx < batch_start + n)%Z ->
            exists o, visit_record env cfg wb df start_index idx = Some o /\
                      o <> Blocked).
  { intros idx Hidx.
    destruct (visit_record_in_range env cfg wb df start_index idx) as [o Ho];
      [lia|done|].
    exists o. split; [done|]. intros ->.
    apply (Hfree (idx - batch_start)%Z); [lia|].
    by replace (batch_start + (idx - batch_start))%Z with idx by lia. }
  destruct (Z.eqb_spec (batch_start + n) batch_end) as [Heq|Hne]; simpl.
  - rewrite <- Heq.
    destruct (batch_loop_unblocked env cfg wb df batch_start start_index
                (range batch_start (batch_start + n)) st [])
      as (rs & st' & Hrun & Hrows & Hcount).
    + intros idx Hidx. apply elem_of_range in Hidx. apply Hadm. lia.
    + intros idx Hidx. apply elem_of_range in Hidx. by apply Hsome.
    + exists rs, st'. rewrite Hrun. simpl. repeat split; [done|].
      rewrite Hcount, length_range. lia.
  - destruct Hstop as [Heq|Hblock]; [done|].
    assert (Hlt : (batch_start + n < batch_end)%Z).
    { destruct (visit_record env cfg wb df start_index (batch_start + n))
        eqn:E; [|done]. lia. }
    rewrite (range_split batch_start (batch_start + n) batch_end) by lia.
    destruct (batch_loop_blocked env cfg wb df batch_start start_index
                (range batch_start (batch_start + n)) (batch_start + n)
                (range (batch_start + n + 1) batch_end) st [])
      as (rs & st' & Hrun & Hrows & Hcount & _).
    + intros idx Hidx. apply elem_of_range in Hidx. apply Hadm. lia.
    + intros idx Hidx. apply elem_of_range in Hidx. by apply Hsome.
    + apply Hadm. lia.
    + done.
    + exists rs, st'. rewrite Hrun. simpl.
      replace (batch_start + n - batch_start)%Z with n by lia.
      repeat split; [done|]. rewrite Hcount, length_range. lia.
Qed.

(** *** Failed records *)


(** When the retry loop is left normally, the page is loaded: the branch
    that stores [page_load_error_data] is never taken. *)
Lemma goto_loop_loaded (v : visit) (remaining count : nat)
    (resp resp' : option response) :
  goto_loop v remaining count resp = inl resp' -> not_loaded resp' = false.
Proof.
  revert count resp. induction remaining as [|n IH]; intros count resp; simpl.
  - destruct (goto v count) as [e| |r]; try discriminate.
    destruct (ok r) eqn:Hok; [|discriminate].
    intros [= <-]. simpl. by rewrite Hok.
  - destruct (goto v count) as [e| |r]; try apply IH.
    destruct (ok r) eqn:Hok; [|apply IH].
    intros [= <-]. simpl. by rewrite Hok.
Qed.











(** *** Checkpoints of a run *)

Lemma load_status_checkpoint (env : environment) (w : world) (xlsx : string)
    (b i : Z) (blk : option Z) :
  load_status env (files (checkpoint env w xlsx b i blk))
  = Some (status_of env xlsx b i blk).
Proof.
  unfold load_status, checkpoint, save_status. simpl.
  by rewrite lookup_insert_eq.
Qed.

Lemma saved_checkpoint (env : environment) (w : world) (xlsx : string)
    (b i : Z) (blk : option Z) :
  saved (checkpoint env w xlsx b i blk)
  = (saved w ++ [status_of env xlsx b i blk])%list.
Proof. reflexivity. Qed.

Lemma stats_checkpoint (env : environment) (w : world) (xlsx : string)
    (b i : Z) (blk : option Z) :
  stats (checkpoint env w xlsx b i blk) = stats w.
Proof. reflexivity. Qed.


Section Run.
Variables (env : environment) (cfg : selectors_config) (wb : web).
Variables (xlsx : string) (df : DataFrame) (batch_size start_index : Z).
Variables (auto_validate : bool) (output_file : string).

Let total : Z := Z.of_nat (length (rows df)).

Let step := batch_step env cfg wb xlsx df batch_size start_index total
              auto_validate output_file.


Hypothesis batch_size_pos : (0 < batch_size)%Z.
Hypothesis url_column : has_column df "URL" = true.

(** The turn of a batch in which the record at relative position [i] is the
    first to be blocked. *)
Lemma batch_step_blocked (k i : Z) (w : world) :
  (0 <= k)%Z -> (0 <= i)%Z ->
  (k * batch_size + i < Z.min (k * batch_size + batch_size) total)%Z ->
  (forall j, (0 <= j < i)%Z ->
     visit_record env cfg wb df start_index (k * batch_size + j) <> Some Blocked) ->
  visit_record env cfg wb df start_index (k * batch_size + i) = Some Blocked ->
  exists rs st',
    let w0 := checkpoint env w xlsx k (start_index + k * batch_size) None in
    let w1 := set_files (set_stats w0 st')
                (_save_results_to_single_file env (files w0) rs output_file) in
    step k w =
      inl (RunBlocked,
           checkpoint env w1 xlsx k (start_index + k * batch_size)
             (Some (start_index + k * batch_size + i)%Z)) /\
    Forall2 (fun idx row => row_of env cfg wb df start_index idx = Some row)
            (range (k * batch_size) (k * batch_size + i)) rs /\
    processed_urls st' = (processed_urls (stats w) + i + 1)%Z.
Proof.
  intros Hk Hi Hin Hfree Hblock. unfold step, batch_step.
  rewrite (proj2 (Z.ltb_lt _ _)) by lia. cbn zeta. rewrite stats_checkpoint.
  destruct (process_batch_rows env cfg wb df (k * batch_size)
              (Z.min (k * batch_size + batch_size) total) start_index
              (stats w) i)
    as (rs & st' & Hrun & Hrows & Hcount); try done; try lia.
  { by right. }
  rewrite (proj2 (Z.eqb_neq _ _)) in Hrun, Hcount by lia. simpl in Hrun.
  exists rs, st'. rewrite Hrun. simpl. repeat split; [done|].
  rewrite Hcount. lia.
Qed.



End Run.

(** C3: when block detection fires at relative position [i] of the batch
    that starts at window offset [batch_start], the batch results hold one
    row for each earlier record of the batch and none for the blocking
    record or a later one, only these rows go to the output store, the
    checkpoint saved last (the one [load_status] reads afterwards) has
    blocked_url_idx = start_index + batch_start + i, and the loop returns
    there: the blocking record is the last one attempted. *)
Theorem block_stops_run (env : environment) (cfg : selectors_config) (wb : web)
    (xlsx : string) (df : DataFrame) (batch_size start_index : Z)
    (auto_validate : bool) (output_file : string) (fuel : nat) (k i : Z)
    (w : world) :
  let total := Z.of_nat (length (rows df)) in
  let batch_start := (k * batch_size)%Z in
  let batch_end := Z.min (batch_start + batch_size) total in
  let before := status_of env xlsx k (start_index + batch_start) None in
  let at_block := status_of env xlsx k (start_index + batch_start)
                    (Some (start_index + batch_start + i)%Z) in
  (0 < batch_size)%Z -> has_column df "URL" = true ->
  (0 <= k)%Z -> (0 <= i)%Z -> (batch_start + i < batch_end)%Z ->
  (forall j, (0 <= j < i)%Z ->
     visit_record env cfg wb df start_index (batch_start + j) <> Some Blocked) ->
  visit_record env cfg wb df start_index (batch_start + i) = Some Blocked ->
  exists rs w',
    batches_loop env cfg wb xlsx df batch_size start_index total auto_validate
      output_file fuel k w = (RunBlocked, w') /\
    Forall2 (fun idx row => row_of env cfg wb df start_index idx = Some row)
            (range batch_start (batch_start + i)) rs /\
    files w' =
      <[resolve env (status_path env) := DocStatus at_block]>
        (_save_results_to_single_file env
           (<[resolve env (status_path env) := DocStatus before]> (files w))
           rs output_file) /\
    load_status env (files w') = Some at_block /\
    saved w' = (saved w ++ [before; at_block])%list /\
    processed_urls (stats w') = (processed_urls (stats w) + i + 1)%Z.
Proof.
  cbn zeta. intros Hbs Hurl Hk Hi Hin Hfree Hblock.
  destruct (batch_step_blocked env cfg wb xlsx df batch_size start_index
              auto_validate output_file Hbs Hurl k i w Hk Hi Hin Hfree Hblock)
    as (rs & st' & Hstep & Hrows & Hcount).
  cbn zeta in Hstep. eexists rs, _.
  split.
  { destruct fuel; simpl; rewrite Hstep; reflexivity. }
  split; [exact Hrows|]. split; [reflexivity|]. split.
  - apply load_status_checkpoint.
  - split; [|exact Hcount].
    rewrite saved_checkpoint. simpl. by rewrite <- app_assoc.
Qed.

Lemma block_stops_run_witness :
  visit_record sample_env ∅ blocking_web three_urls 0 (0 * 2 + 1)
    = Some Blocked /\
  exists (rs : list pydict) w',
    batches_loop sample_env ∅ blocking_web "urls.xlsx" three_urls 2 0 3 false
      "RAW/2025-04-25_coupang_results.xlsx" 3 0 sample_world = (RunBlocked, w') /\
    length rs = 1%nat /\
    load_status sample_env (files w')
      = Some (status_of sample_env "urls.xlsx" 0 0 (Some 1%Z)) /\
    processed_urls (stats w') = 2%Z.
Proof.
  assert (Hblock : visit_record sample_env ∅ blocking_web three_urls 0 (0 * 2 + 1)
                   = Some Blocked) by (vm_compute; reflexivity).
  split; [exact Hblock|].
  destruct (block_stops_run sample_env ∅ blocking_web "urls.xlsx" three_urls
              2 0 false "RAW/2025-04-25_coupang_results.xlsx" 3 0 1 sample_world)
    as (rs & w' & Hrun & Hrows & _ & Hload & _ & Hcount).
  - lia.
  - vm_compute. reflexivity.
  - lia.
  - lia.
  - simpl. lia.
  - intros j Hj. assert (j = 0%Z) as -> by lia. vm_compute. discriminate.
  - exact Hblock.
  - exists rs, w'. split; [exact Hrun|]. split.
    + apply Forall2_length in Hrows. rewrite <- Hrows. reflexivity.
    + split; [exact Hload|exact Hcount].
Defined.



(** *** The reset of the checkpoint after a completed run *)

(** The reset writes the file named [STATUS_FILE] in the working directory;
    unless that is the checkpoint document itself, [load_status] reads
    afterwards what it read before. *)
Lemma reset_status_file_misses (env : environment) (fs : filesystem) :
  resolve env STATUS_FILE <> resolve env (status_path env) ->
  load_status env (reset_status_file env fs) = load_status env fs.
Proof.
  intros Hne. unfold reset_status_file, load_status.
  destruct (exists_file env fs STATUS_FILE); [|done].
  by rewrite lookup_insert_ne.
Qed.

(** C6 fails on the code: after a run started from the project directory
    has exhausted its window without a block, the checkpoint [load_status]
    reads is the one saved after the last batch, not the empty one, and the
    next run on the same file resumes at the end of the file: it attempts no
    record and saves no checkpoint. *)
Theorem completed_run_keeps_checkpoint :
  let run := process_urls sample_env ∅ sample_config good_web sample_world
               "urls.xlsx" None 0 None true false in
  let rerun := process_urls sample_env ∅ sample_config good_web (snd run)
                 "urls.xlsx" None 0 None true false in
  fst run = RunCompleted /\
  load_status sample_env (files (snd run))
    = Some (status_of sample_env "urls.xlsx" 2 3 None) /\
  load_status sample_env (files (snd run)) <> Some (initial_status sample_env) /\
  resolve_start_index true (load_status sample_env (files (snd run)))
    "urls.xlsx" 0 = 3%Z /\
  fst rerun = RunCompleted /\
  processed_urls (stats (snd rerun)) = processed_urls (stats (snd run)) /\
  saved (snd rerun) = saved (snd run).
Proof. vm_compute. repeat split. discriminate. Qed.

(** With a [crawler_status.json] lying in the working directory the reset
    is written, but into that file: the checkpoint document is as stale. *)
Lemma completed_run_resets_other_file :
  let run := process_urls sample_env ∅ sample_config good_web stray_world
               "urls.xlsx" None 0 None true false in
  files (snd run) !! "/home/crawler/coupang-crawler-project/crawler_status.json"
    = Some (DocStatus (initial_status sample_env)) /\
  load_status sample_env (files (snd run))
    = Some (status_of sample_env "urls.xlsx" 2 3 None).
Proof. vm_compute. split; reflexivity. Qed.

End CrawlerFacts.

(* ===================================================================== *)
(** * Further properties of the code *)
(* ===================================================================== *)

(** ** Page loads and block verdicts in the crawl *)

Module VisitProps.
Import Frame Browser Checkpoint Extract Visit BlockDetect Crawler Words.
Import Samples MoreSamples.

Lemma goto_loop_first_success (v : visit) (remaining count : nat)
    (resp : option response) (k : nat) (r : response) :
  (count <= k <= count + remaining)%nat ->
  (forall j, (count <= j < k)%nat -> attempt_fails (goto v j)) ->
  goto v k = GotoResponse r -> ok r = true ->
  goto_loop v remaining count resp = inl (Some r).
Proof.
  revert count resp. induction remaining as [|n IH]; intros count resp Hk Hfail Hg Hok.
  - assert (count = k) as -> by lia. simpl. by rewrite Hg, Hok.
  - destruct (decide (count = k)) as [->|Hne].
    + simpl. by rewrite Hg, Hok.
    + pose proof (Hfail count ltac:(lia)) as Hc. simpl.
      destruct (goto v count) as [e| |r0]; simpl in Hc;
        rewrite ?Hc; apply IH; try done; try lia;
        intros j Hj; apply Hfail; lia.
Qed.

Lemma goto_loop_last_error (v : visit) (remaining count : nat)
    (resp : option response) :
  (forall j, (count <= j <= count + remaining)%nat -> attempt_fails (goto v j)) ->
  goto_loop v remaining count resp
  = inr (attempt_error (goto v (count + remaining))).
Proof.
  revert count resp. induction remaining as [|n IH]; intros count resp Hfail.
  - pose proof (Hfail count ltac:(lia)) as Hc. simpl.
    rewrite Nat.add_0_r.
    destruct (goto v count) as [e| |r0]; simpl in *; by rewrite ?Hc.
  - pose proof (Hfail count ltac:(lia)) as Hc. simpl.
    replace (count + S n)%nat with (S count + n)%nat by lia.
    destruct (goto v count) as [e| |r0]; simpl in Hc;
      rewrite ?Hc; apply IH; intros j Hj; apply Hfail; lia.
Qed.

Lemma goto_loop_inl (v : visit) (remaining count : nat)
    (resp resp' : option response) :
  goto_loop v remaining count resp = inl resp' ->
  exists r, resp' = Some r /\ ok r = true.
Proof.
  revert count resp. induction remaining as [|n IH]; intros count resp; simpl.
  - destruct (goto v count) as [e| |r]; try discriminate.
    destruct (ok r) eqn:Hok; [|discriminate].
    intros [= <-]. by exists r.
  - destruct (goto v count) as [e| |r]; try apply IH.
    destruct (ok r) eqn:Hok; [|apply IH].
    intros [= <-]. by exists r.
Qed.

Lemma ok_not_status_blocked (r : response) :
  ok r = true -> status_blocked (Some r) = false.
Proof.
  unfold ok, status_blocked, block_status_codes. intros H.
  apply andb_true_iff in H as [H1 H2].
  apply Z.leb_le in H1. apply Z.leb_le in H2.
  apply bool_decide_eq_false. rewrite !elem_of_cons, elem_of_nil. lia.
Qed.

(** X2: the page-load retry policy.  The first attempt that returns a 2xx
    response ends the loop with that response; the loop never looks at a
    fourth attempt; when all three attempts fail the exception that leaves
    the loop is the one of the third attempt. *)
Theorem goto_retry_policy (v : visit) :
  (forall k r, (k < max_goto_retries)%nat ->
     (forall j, (j < k)%nat -> attempt_fails (goto v j)) ->
     goto v k = GotoResponse r -> ok r = true ->
     goto_loop v (max_goto_retries - 1) 0 None = inl (Some r)) /\
  (forall v', (forall k, (k < max_goto_retries)%nat -> goto v' k = goto v k) ->
     goto_loop v' (max_goto_retries - 1) 0 None
     = goto_loop v (max_goto_retries - 1) 0 None) /\
  ((forall k, (k < max_goto_retries)%nat -> attempt_fails (goto v k)) ->
   goto_loop v (max_goto_retries - 1) 0 None = inr (attempt_error (goto v 2))).
Proof.
  unfold max_goto_retries. split; [|split].
  - intros k r Hk Hfail Hg Hok.
    apply (goto_loop_first_success v 2 0 None k r); try done; try (simpl; lia).
    intros j Hj. apply Hfail. lia.
  - intros v' Hsame. simpl.
    rewrite (Hsame 0%nat), (Hsame 1%nat), (Hsame 2%nat) by lia. reflexivity.
  - intros Hfail.
    apply (goto_loop_last_error v 2 0 None). intros j Hj. apply Hfail. simpl in Hj. lia.
Qed.

Lemma goto_retry_policy_witness :
  (forall j, (j < 2)%nat -> attempt_fails (goto flaky_visit j)) /\
  goto_loop flaky_visit (max_goto_retries - 1) 0 None
    = inl (Some (Response 200)) /\
  (forall k, (k < max_goto_retries)%nat -> attempt_fails (goto timeout_visit k)) /\
  goto_loop timeout_visit (max_goto_retries - 1) 0 None
    = inr "Timeout 60000ms exceeded".
Proof.
  assert (H1 : forall j, (j < 2)%nat -> attempt_fails (goto flaky_visit j)).
  { intros j Hj. destruct j as [|[|j]]; [exact I|reflexivity|lia]. }
  assert (H2 : forall k, (k < max_goto_retries)%nat ->
                 attempt_fails (goto timeout_visit k)).
  { intros k _. exact I. }
  destruct (goto_retry_policy flaky_visit) as (Hfirst & _ & _).
  destruct (goto_retry_policy timeout_visit) as (_ & _ & Hlast).
  split; [exact H1|]. split; [|split; [exact H2|]].
  - apply (Hfirst 2%nat); [unfold max_goto_retries; lia|exact H1|reflexivity|reflexivity].
  - apply Hlast. exact H2.
Defined.

(** X3: in the crawl a block verdict never comes from the HTTP status.
    Block detection is reached only with a 2xx response, so a record ends as
    blocked only because of the page itself; a page that answers 403, 429 or
    503 at every attempt ends as a failure row whose ERROR names that status,
    and the batch goes on. *)
Theorem crawl_block_is_never_by_status (env : environment)
    (cfg : selectors_config) (v : visit) (url : cell) (original_index : Z)
    (prod_id : cell) :
  (process_record env cfg v url original_index prod_id = Blocked ->
   exists r, ok r = true /\ status_blocked (Some r) = false /\
             detect_block cfg (loaded v) (Some r) = true) /\
  (forall code,
     code ∈ block_status_codes -> setup_error v = None ->
     (forall k, (k < max_goto_retries)%nat ->
                goto v k = GotoResponse (Response code)) ->
     process_record env cfg v url original_index prod_id
     = Failed (error_data env url original_index prod_id
                 (load_failed (pretty code)))).
Proof.
  split.
  - unfold process_record.
    destruct (setup_error v); [discriminate|].
    destruct (goto_loop v (max_goto_retries - 1) 0 None) as [resp|e] eqn:Hloop;
      [|discriminate].
    destruct (goto_loop_inl _ _ _ _ _ Hloop) as (r & -> & Hok).
    simpl. rewrite Hok. simpl.
    destruct (detect_block cfg (loaded v) (Some r)) eqn:Hd; [|discriminate].
    intros _. exists r. split; [done|]. split; [|done].
    by apply ok_not_status_blocked.
  - intros code Hcode Hsetup Hgoto. unfold process_record. rewrite Hsetup.
    rewrite (goto_loop_last_error v (max_goto_retries - 1) 0 None).
    + simpl. by rewrite (Hgoto 2%nat) by (unfold max_goto_retries; lia).
    + intros j Hj. rewrite Hgoto by (unfold max_goto_retries in *; simpl in Hj; lia).
      simpl. unfold ok. simpl. unfold block_status_codes in Hcode.
      rewrite !elem_of_cons, elem_of_nil in Hcode.
      destruct Hcode as [->|[->|[->|[]]]]; reflexivity.
Qed.

Lemma crawl_block_is_never_by_status_witness :
  process_record sample_env ∅ blocked_visit (CStr "u") 1 CNone = Blocked /\
  (exists r, ok r = true /\ status_blocked (Some r) = false /\
             detect_block ∅ (loaded blocked_visit) (Some r) = true) /\
  process_record sample_env ∅ forbidden_visit (CStr "u") 1 CNone
  = Failed (error_data sample_env (CStr "u") 1 CNone
              "페이지 로드 실패: 상태 코드 403").
Proof.
  destruct (crawl_block_is_never_by_status sample_env ∅ blocked_visit
              (CStr "u") 1 CNone) as [Hblock _].
  destruct (crawl_block_is_never_by_status sample_env ∅ forbidden_visit
              (CStr "u") 1 CNone) as [_ Hstatus].
  assert (Hb : process_record sample_env ∅ blocked_visit (CStr "u") 1 CNone
               = Blocked) by (vm_compute; reflexivity).
  split; [exact Hb|]. split; [exact (Hblock Hb)|].
  apply (Hstatus 403%Z).
  - apply list_elem_of_In. simpl. tauto.
  - reflexivity.
  - intros k _. reflexivity.
Defined.

(** X4: with an empty list configured under "block_indicators", every page
    whose content can be read is reported as blocked (none of zero selectors
    missing already is "at least half"). *)
Theorem empty_indicator_list_blocks_everything (cfg : selectors_config)
    (pg : page) (resp : option response) :
  cfg !! "block_indicators" = Some [] ->
  is_Some (content pg) ->
  detect_block cfg pg resp = true.
Proof.
  intros Hcfg [html Hc]. unfold detect_block, get_selectors.
  rewrite Hcfg, Hc. destruct (status_blocked resp); [done|].
  destruct (pattern_found html); done.
Qed.

Lemma empty_indicator_list_blocks_everything_witness :
  detect_block {[ "block_indicators" := [] ]} product_page
    (Some (Response 200)) = true /\
  detect_block ∅ product_page (Some (Response 200)) = false.
Proof.
  split.
  - apply empty_indicator_list_blocks_everything.
    + apply lookup_singleton_eq.
    + by eexists.
  - vm_compute. reflexivity.
Defined.

End VisitProps.

(** ** Batches: counters, output store, batch size *)

Module BatchProps.
Import Frame Browser Checkpoint Extract Visit BlockDetect Validator Crawler.
Import Words Samples MoreSamples.




(** *** The output store *)

Lemma save_results_stored (env : environment) (fs : filesystem)
    (rs : list pydict) (output_file : string) :
  workbook_or_free env fs output_file ->
  stored_rows env (_save_results_to_single_file env fs rs output_file) output_file
    = (stored_rows env fs output_file ++ (read_row <$> rs))%list /\
  workbook_or_free env (_save_results_to_single_file env fs rs output_file)
    output_file /\
  forall p, p <> resolve env output_file ->
    _save_results_to_single_file env fs rs output_file !! p = fs !! p.
Proof.
  intros Hwf. unfold _save_results_to_single_file.
  destruct rs as [|r rs]; [by rewrite app_nil_r|].
  destruct (exists_file env fs output_file) eqn:Hex.
  - destruct (Hwf Hex) as [df Hdf]. rewrite Hdf.
    pose proof (ValidateFacts.read_excel_read _ _ _ _ Hdf) as Hidem.
    unfold stored_rows, workbook_or_free. rewrite Hdf.
    rewrite ValidateFacts.read_excel_to_excel. simpl.
    split; [|split; [by eexists|]].
    + rewrite fmap_app. f_equal.
      apply (f_equal rows) in Hidem. exact Hidem.
    + intros p Hp. unfold to_excel. by rewrite lookup_insert_ne.
  - unfold stored_rows, workbook_or_free.
    rewrite ValidateFacts.read_excel_to_excel. simpl.
    assert (Hnone : read_excel env fs output_file = None).
    { unfold read_excel, exists_file in *. apply bool_decide_eq_false in Hex.
      destruct (fs !! resolve env output_file) as [d|] eqn:Hd; [|done].
      exfalso. apply Hex. by eexists. }
    rewrite Hnone. simpl. split; [done|]. split; [by eexists|].
    intros p Hp. unfold to_excel. by rewrite lookup_insert_ne.
Qed.

(** X6: saving batch results re-reads the store and writes it back with the
    new rows after it.  When the output path is free or holds a workbook:
    as [pd.read_excel] reads it, the store afterwards holds what it held
    before followed by the new rows, in order; in the file itself the rows
    stored earlier are written back as they were read, so a cell of theirs
    that held "NA" (or another text read as missing) is now empty, while the
    new rows are written as given; the columns are those of the store and
    the keys of the new rows; nothing is written for an empty result list;
    no other file is touched. *)
Theorem save_results_appends (env : environment) (fs : filesystem)
    (new_results : list pydict) (output_file : string) :
  workbook_or_free env fs output_file ->
  let fs' := _save_results_to_single_file env fs new_results output_file in
  stored_rows env fs' output_file
    = (stored_rows env fs output_file ++ (read_row <$> new_results))%list /\
  (forall existing,
     new_results <> [] ->
     fs !! resolve env output_file = Some (DocFrame existing) ->
     exists df',
       fs' !! resolve env output_file = Some (DocFrame df') /\
       rows df' = ((read_row <$> rows existing) ++ new_results)%list /\
       columns df' = columns existing ∪ ⋃ (dom <$> new_results)) /\
  (new_results = [] -> fs' = fs) /\
  (forall p, p <> resolve env output_file -> fs' !! p = fs !! p).
Proof.
  intros Hwf. cbn zeta.
  destruct (save_results_stored env fs new_results output_file Hwf)
    as (H1 & _ & H3).
  split; [exact H1|]. split; [|split; [by intros ->|exact H3]].
  intros existing Hne Hfile. unfold _save_results_to_single_file.
  destruct new_results as [|r rs]; [done|].
  assert (Hex : exists_file env fs output_file = true).
  { unfold exists_file. apply bool_decide_eq_true. by eexists. }
  rewrite Hex. unfold read_excel. rewrite Hfile.
  eexists. unfold to_excel. rewrite lookup_insert_eq. split; [reflexivity|].
  by split.
Qed.

Lemma save_results_appends_witness :
  let output_file := "RAW/2025-04-25_coupang_results.xlsx" in
  let fs' :=
    _save_results_to_single_file sample_env clean_files [failed_row "x"]
      output_file in
  workbook_or_free sample_env clean_files output_file /\
  stored_rows sample_env fs' output_file
  = (stored_rows sample_env clean_files output_file
       ++ (read_row <$> [failed_row "x"]))%list /\
  exists df',
    fs' !! resolve sample_env output_file = Some (DocFrame df') /\
    rows df' = ((read_row <$> rows clean_store) ++ [failed_row "x"])%list.
Proof.
  cbn zeta.
  assert (Hwf : workbook_or_free sample_env clean_files
                  "RAW/2025-04-25_coupang_results.xlsx").
  { intros _. vm_compute. by eexists. }
  split; [exact Hwf|].
  destruct (save_results_appends sample_env clean_files [failed_row "x"]
              "RAW/2025-04-25_coupang_results.xlsx" Hwf) as (H & Hfile & _ & _).
  split; [exact H|].
  destruct (Hfile clean_store) as (df' & Hdoc & Hrows & _).
  - discriminate.
  - vm_compute. reflexivity.
  - exists df'. split; [exact Hdoc|exact Hrows].
Defined.

(** *** A batch size that is not positive *)

Lemma batch_step_nonpositive (env : environment) (cfg : selectors_config)
    (wb : web) (xlsx : string) (df : DataFrame) (batch_size start_index total : Z)
    (auto_validate : bool) (output_file : string) (k : Z) (w : world) :
  (batch_size <= 0)%Z -> (0 < total)%Z -> (0 <= k)%Z ->
  exists w1,
    batch_step env cfg wb xlsx df batch_size start_index total auto_validate
      output_file k w = inr w1 /\
    stats w1 = stats w /\
    length (saved w1) = (length (saved w) + 2)%nat /\
    forall p, p <> resolve env (status_path env) -> files w1 !! p = files w !! p.
Proof.
  intros Hbs Htotal Hk. unfold batch_step.
  rewrite (proj2 (Z.ltb_lt _ _)) by nia. cbn zeta.
  unfold _process_batch. rewrite CrawlerFacts.range_nil by lia. simpl.
  rewrite (proj2 (Z.leb_gt _ _)) by nia.
  eexists. split; [reflexivity|]. simpl. repeat split.
  - rewrite !length_app. simpl. lia.
  - intros p Hp. by rewrite !lookup_insert_ne.
Qed.

(** X7: with a batch size that is zero or negative and a window that is not
    empty, the batch loop never ends: whatever the number of turns allowed,
    it is still running after them, having attempted no record and written
    nothing but checkpoints (two per turn). *)
Theorem nonpositive_batch_size_never_ends (env : environment)
    (cfg : selectors_config) (wb : web) (xlsx : string) (df : DataFrame)
    (batch_size start_index total : Z) (auto_validate : bool)
    (output_file : string) (fuel : nat) (k : Z) (w : world) :
  (batch_size <= 0)%Z -> (0 < total)%Z -> (0 <= k)%Z ->
  exists w',
    batches_loop env cfg wb xlsx df batch_size start_index total auto_validate
      output_file fuel k w = (RunDiverges, w') /\
    stats w' = stats w /\
    length (saved w') = (length (saved w) + 2 * (fuel + 1))%nat /\
    forall p, p <> resolve env (status_path env) -> files w' !! p = files w !! p.
Proof.
  intros Hbs Htotal. revert k w. induction fuel as [|fuel IH]; intros k w Hk.
  - destruct (batch_step_nonpositive env cfg wb xlsx df batch_size start_index
                total auto_validate output_file k w Hbs Htotal Hk)
      as (w1 & Hstep & Hst & Hsaved & Hfiles).
    exists w1. simpl. rewrite Hstep. repeat split; try done; lia.
  - destruct (batch_step_nonpositive env cfg wb xlsx df batch_size start_index
                total auto_validate output_file k w Hbs Htotal Hk)
      as (w1 & Hstep & Hst & Hsaved & Hfiles).
    destruct (IH (k + 1)%Z w1) as (w' & Hrun & Hst' & Hsaved' & Hfiles'); [lia|].
    exists w'. simpl. rewrite Hstep. split; [exact Hrun|]. repeat split.
    + congruence.
    + lia.
    + intros p Hp. rewrite Hfiles' by done. by apply Hfiles.
Qed.

Lemma nonpositive_batch_size_never_ends_witness :
  exists w',
    batches_loop sample_env ∅ good_web "urls.xlsx" three_urls (-1) 0 3 false
      "RAW/2025-04-25_coupang_results.xlsx" 5 0 sample_world = (RunDiverges, w') /\
    processed_urls (stats w') = 0%Z /\
    length (saved w') = 12%nat.
Proof.
  destruct (nonpositive_batch_size_never_ends sample_env ∅ good_web "urls.xlsx"
              three_urls (-1) 0 3 false "RAW/2025-04-25_coupang_results.xlsx"
              5 0 sample_world) as (w' & Hrun & Hst & Hsaved & _); try lia.
  exists w'. split; [exact Hrun|]. split.
  - by rewrite Hst.
  - exact Hsaved.
Defined.

(** *** A configuration without "recovery_wait" *)



End BatchProps.

(** ** The validator: merge, re-crawl, files *)

Module ValidatorProps.
Import Frame Browser Checkpoint Extract Visit BlockDetect Validator Crawler.
Import Words Samples MoreSamples Aux.

Lemma update_row_index (cols : gset string) (r row : pydict) :
  at_col (update_row cols r row) "ORIGINAL_INDEX" = at_col row "ORIGINAL_INDEX".
Proof.
  destruct (MergeFacts.update_row_cases cols r row) as [(_ & Hc & ->)|[_ ->]];
    [|done].
  by apply MergeFacts.merge_row_index.
Qed.

Lemma foldl_update_row_index (cols : gset string) (rs : list pydict)
    (row : pydict) :
  at_col (foldl (fun acc r => update_row cols r acc) row rs) "ORIGINAL_INDEX"
  = at_col row "ORIGINAL_INDEX".
Proof.
  revert row. induction rs as [|r rs IH]; intros row; [done|].
  simpl. rewrite IH. apply update_row_index.
Qed.

Lemma merge_shape (df df' : DataFrame) (fixed_records : list pydict) :
  _update_dataframe df fixed_records = Some df' ->
  columns df' = columns df /\
  length (rows df') = length (rows df) /\
  forall i row, rows df !! i = Some row ->
    exists row',
      rows df' !! i = Some row' /\
      at_col row' "ORIGINAL_INDEX" = at_col row "ORIGINAL_INDEX" /\
      ((forall r, r ∈ fixed_records -> ~ corresponds row r) -> row' = row).
Proof.
  intros H. apply MergeFacts.update_dataframe_rows in H as [Hc Hr].
  split; [exact Hc|]. split; [by rewrite Hr, length_map|].
  intros i row Hrow. eexists. rewrite Hr, list_lookup_fmap, Hrow. simpl.
  split; [reflexivity|]. split; [apply foldl_update_row_index|].
  intros Hno. apply MergeFacts.merge_frame. intros r Hr' _. by apply Hno.
Qed.

(** X8: the merge keeps the shape of the store.  Whatever the re-crawled
    results are, the merged dataframe has the same columns and the same
    number of rows, every row keeps its position and its ORIGINAL_INDEX, and
    a row that corresponds to no result is unchanged. *)
Theorem update_dataframe_keeps_shape (df df' : DataFrame)
    (fixed_records : list pydict) :
  _update_dataframe df fixed_records = Some df' ->
  columns df' = columns df /\
  length (rows df') = length (rows df) /\
  forall i row, rows df !! i = Some row ->
    exists row',
      rows df' !! i = Some row' /\
      at_col row' "ORIGINAL_INDEX" = at_col row "ORIGINAL_INDEX" /\
      ((forall r, r ∈ fixed_records -> ~ corresponds row r) -> row' = row).
Proof. apply merge_shape. Qed.

Lemma update_dataframe_keeps_shape_witness :
  match _update_dataframe twice_failed_store mixed_recrawl with
  | Some df' =>
      columns df' = columns twice_failed_store /\
      length (rows df') = 2%nat
  | None => False
  end.
Proof.
  destruct (_update_dataframe twice_failed_store mixed_recrawl) as [df'|] eqn:H.
  - destruct (update_dataframe_keeps_shape _ _ _ H) as (Hc & Hl & _).
    split; [exact Hc|exact Hl].
  - vm_compute in H. discriminate.
Defined.

(** *** What a validation writes *)

Lemma validate_untouched (env : environment) (cfg : selectors_config) (w : web)
    (fs : filesystem) (result_file : string) (batch_size : nat) (p : string) :
  p <> resolve env (backup_path result_file) ->
  p <> resolve env (validated_path result_file) ->
  p <> resolve env (validated_today_path env result_file) ->
  files_after (validate_and_recrawl env cfg w fs result_file batch_size) !! p
  = fs !! p.
Proof.
  intros H1 H2 H3. unfold validate_and_recrawl.
  destruct (exists_file env fs result_file); [|done]. simpl.
  destruct (read_excel env fs result_file) as [df|]; [|done].
  fold (backup_path result_file) (validated_path result_file)
       (validated_today_path env result_file).
  destruct (length (rows (_identify_error_records df)) =? 0)%nat.
  { simpl. unfold to_excel. by rewrite !lookup_insert_ne. }
  destruct (_recrawl_error_urls env cfg w (_identify_error_records df) batch_size)
    as [[fixed|] urls]; simpl.
  - destruct (_update_dataframe df fixed); simpl; unfold to_excel;
      by rewrite !lookup_insert_ne.
  - unfold to_excel. by rewrite !lookup_insert_ne.
Qed.

(** X9: what a validation writes.  Without a result file it returns False
    and writes nothing.  Otherwise it writes at most three files, the backup
    and the two validated names, and leaves every other file (the running
    output store, the checkpoint) as it was; the backup holds the store as
    it was read, unless a validated file has the same path. *)
Theorem validation_footprint (env : environment) (cfg : selectors_config)
    (w : web) (fs : filesystem) (result_file : string) (batch_size : nat) :
  let v := validate_and_recrawl env cfg w fs result_file batch_size in
  (exists_file env fs result_file = false ->
   succeeded v = false /\ files_after v = fs /\ recrawled v = []) /\
  (forall p,
     p <> resolve env (backup_path result_file) ->
     p <> resolve env (validated_path result_file) ->
     p <> resolve env (validated_today_path env result_file) ->
     files_after v !! p = fs !! p) /\
  (forall df,
     read_excel env fs result_file = Some df ->
     resolve env (backup_path result_file)
       <> resolve env (validated_path result_file) ->
     resolve env (backup_path result_file)
       <> resolve env (validated_today_path env result_file) ->
     read_excel env (files_after v) (backup_path result_file) = Some df).
Proof.
  cbn zeta. split; [|split].
  - intros Hex. unfold validate_and_recrawl. by rewrite Hex.
  - intros p. apply validate_untouched.
  - intros df Hread Hne1 Hne2. unfold validate_and_recrawl.
    pose proof (ValidateFacts.read_excel_read _ _ _ _ Hread) as Hidem.
    rewrite (ValidateFacts.read_excel_exists _ _ _ _ Hread), Hread. simpl.
    fold (backup_path result_file) (validated_path result_file)
         (validated_today_path env result_file).
    destruct (length (rows (_identify_error_records df)) =? 0)%nat.
    { simpl. unfold read_excel, to_excel.
      rewrite lookup_insert_ne by done. rewrite lookup_insert_eq.
      by rewrite Hidem. }
    destruct (_recrawl_error_urls env cfg w (_identify_error_records df) batch_size)
      as [[fixed|] urls]; simpl.
    + destruct (_update_dataframe df fixed); simpl; unfold read_excel, to_excel;
        rewrite ?lookup_insert_ne by done; rewrite lookup_insert_eq;
        by rewrite Hidem.
    + unfold read_excel, to_excel. rewrite lookup_insert_eq. by rewrite Hidem.
Qed.

Lemma validation_footprint_witness :
  let v := validate_and_recrawl sample_env ∅ good_web sample_files
             "RAW/2025-04-25_coupang_results.xlsx" 5 in
  exists_file sample_env sample_files "RAW/2025-04-25_coupang_results.xlsx"
    = false /\
  succeeded v = false /\ files_after v = sample_files /\
  (let v' := validate_and_recrawl sample_env ∅ mixed_web
               {[ "/home/crawler/coupang-crawler-project/RAW/a.xlsx"
                    := DocFrame twice_failed_store ]} "RAW/a.xlsx" 5 in
   read_excel sample_env (files_after v') (backup_path "RAW/a.xlsx")
     = Some (read_frame twice_failed_store)).
Proof.
  cbn zeta.
  assert (Hex : exists_file sample_env sample_files
                  "RAW/2025-04-25_coupang_results.xlsx" = false)
    by (vm_compute; reflexivity).
  destruct (validation_footprint sample_env ∅ good_web sample_files
              "RAW/2025-04-25_coupang_results.xlsx" 5) as (Hmissing & _ & _).
  destruct (Hmissing Hex) as (H1 & H2 & _).
  destruct (validation_footprint sample_env ∅ mixed_web
              {[ "/home/crawler/coupang-crawler-project/RAW/a.xlsx"
                   := DocFrame twice_failed_store ]} "RAW/a.xlsx" 5)
    as (_ & _ & Hbackup).
  split; [exact Hex|]. split; [exact H1|]. split; [exact H2|].
  apply Hbackup.
  - vm_compute. reflexivity.
  - vm_compute. discriminate.
  - vm_compute. discriminate.
Defined.

(** *** The re-crawl *)

Lemma index_mask_rows (df : DataFrame) (idx : cell) :
  index_mask df idx
  = map (fun r => cell_eqb (at_col r "ORIGINAL_INDEX") idx) (rows df).
Proof. unfold index_mask, series. by rewrite map_map. Qed.

Lemma recrawl_failed_some (error_df : DataFrame) (row : pydict) (e : string) :
  row ∈ rows error_df -> indexed row ->
  exists first_row,
    recrawl_failed error_df (at_col row "ORIGINAL_INDEX") e
    = Some (<["ERROR" := CStr ("재수집 실패: " +:+ e)]>
              (to_dict (columns error_df) first_row)).
Proof.
  intros Hin Hidx. unfold recrawl_failed.
  rewrite index_mask_rows, IdentifyFacts.select_rows_map.
  destruct (filter _ (rows error_df)) as [|r rs] eqn:Hf.
  - exfalso. assert (Hrow : row ∈ filter
        (fun r => cell_eqb (at_col r "ORIGINAL_INDEX")
                    (at_col row "ORIGINAL_INDEX") = true) (rows error_df)).
    { apply list_elem_of_filter. by split. }
    rewrite Hf in Hrow. by apply elem_of_nil in Hrow.
  - by exists r.
Qed.

Lemma recrawl_record_some (env : environment) (cfg : selectors_config)
    (v : visit) (error_df : DataFrame) (row : pydict) :
  row ∈ rows error_df -> indexed row ->
  is_Some (recrawl_record env cfg v error_df row).
Proof.
  intros Hin Hidx. unfold recrawl_record.
  destruct (recrawl_try _ _ _ _ _ _) as [d|e]; [by eexists|].
  destruct (recrawl_failed_some error_df row e Hin Hidx) as [r ->]. by eexists.
Qed.

Lemma recrawl_rows_all (env : environment) (cfg : selectors_config) (w : web)
    (error_df : DataFrame) (batch : list pydict) (pos : nat) :
  (forall row, row ∈ batch -> row ∈ rows error_df /\ indexed row) ->
  exists rs,
    recrawl_rows env cfg w error_df pos batch
      = (Some rs, map (fun r => at_col r "URL") batch) /\
    length rs = length batch /\
    forall j row, batch !! j = Some row ->
      rs !! j = recrawl_record env cfg (recrawl_visit w (pos + j)) error_df row.
Proof.
  revert pos. induction batch as [|row batch IH]; intros pos Hall.
  - exists []. simpl. repeat split. intros j row H. by rewrite lookup_nil in H.
  - destruct (Hall row) as [Hin Hidx]; [by left|].
    destruct (recrawl_record_some env cfg (recrawl_visit w pos) error_df row
                Hin Hidx) as [d Hd].
    destruct (IH (S pos)) as (rs & Hrun & Hlen & Hrs).
    { intros r Hr. apply Hall. by right. }
    exists (d :: rs). simpl. rewrite Hd, Hrun. simpl.
    split; [done|]. split; [by rewrite Hlen|].
    intros [|j] r Hj; simpl in *.
    + injection Hj as <-. by rewrite Nat.add_0_r.
    + rewrite (Hrs j r Hj). by replace (pos + S j)%nat with (S pos + j)%nat by lia.
Qed.

Lemma recrawl_batches_all (env : environment) (cfg : selectors_config) (w : web)
    (error_df : DataFrame) (batch_size fuel i : nat) :
  (0 < batch_size)%nat ->
  (length (rows error_df) <= i + fuel)%nat ->
  (forall row, row ∈ rows error_df -> indexed row) ->
  exists rs,
    recrawl_batches env cfg w error_df batch_size fuel i
      = (Some rs, map (fun r => at_col r "URL") (drop i (rows error_df))) /\
    length rs = length (drop i (rows error_df)) /\
    forall j row, drop i (rows error_df) !! j = Some row ->
      rs !! j = recrawl_record env cfg (recrawl_visit w (i + j)) error_df row.
Proof.
  intros Hbs. revert i. induction fuel as [|fuel IH]; intros i Hfuel Hidx.
  - exists []. simpl. rewrite drop_ge by lia. repeat split.
    intros j row H. by rewrite lookup_nil in H.
  - simpl. destruct (Nat.ltb_spec i (length (rows error_df))) as [Hlt|Hge].
    2:{ exists []. rewrite drop_ge by lia. repeat split.
        intros j row H. by rewrite lookup_nil in H. }
    destruct (recrawl_rows_all env cfg w error_df
                (take batch_size (drop i (rows error_df))) i)
      as (rs1 & Hrun1 & Hlen1 & Hrs1).
    { intros row Hrow.
      assert (Hin : row ∈ rows error_df).
      { apply (subseteq_drop i), (subseteq_take batch_size). exact Hrow. }
      split; [done|]. by apply Hidx. }
    destruct (IH (i + batch_size)%nat) as (rs2 & Hrun2 & Hlen2 & Hrs2);
      [lia|done|].
    exists (rs1 ++ rs2)%list. rewrite Hrun1, Hrun2. simpl.
    rewrite <- drop_drop in Hlen2, Hrs2 |- *.
    set (l := drop i (rows error_df)) in *.
    split; [|split].
    + f_equal. by rewrite <- map_app, take_drop.
    + rewrite length_app, Hlen1, Hlen2, <- length_app. by rewrite take_drop.
    + intros j row Hj. rewrite <- (take_drop batch_size l) in Hj.
      destruct (decide (j < length rs1)%nat) as [Hj1|Hj1].
      * rewrite lookup_app_l in Hj by lia. rewrite lookup_app_l by done.
        by apply Hrs1.
      * rewrite lookup_app_r in Hj by lia. rewrite lookup_app_r by lia.
        rewrite Hlen1 in *.
        rewrite (Hrs2 _ row Hj). f_equal. f_equal.
        assert (length (take batch_size l) = batch_size).
        { rewrite length_take. unfold l. rewrite length_drop.
          destruct (decide (batch_size <= length (rows error_df) - i)%nat);
            [lia|].
          exfalso. apply lookup_lt_Some in Hj.
          rewrite length_drop, length_take in Hj. unfold l in Hj.
          rewrite length_drop in Hj. lia. }
        lia.
Qed.

Lemma recrawl_one_per_record (env : environment)
    (cfg : selectors_config) (w : web) (error_df : DataFrame)
    (batch_size : nat) :
  has_column error_df "URL" = true ->
  has_column error_df "ORIGINAL_INDEX" = true ->
  (0 < batch_size)%nat ->
  (forall row, row ∈ rows error_df -> indexed row) ->
  exists results,
    _recrawl_error_urls env cfg w error_df batch_size
      = (Some results, map (fun r => at_col r "URL") (rows error_df)) /\
    length results = length (rows error_df) /\
    forall i row, rows error_df !! i = Some row ->
      exists result,
        results !! i = Some result /\
        recrawl_record env cfg (recrawl_visit w i) error_df row = Some result /\
        (setup_error (recrawl_visit w i) = None ->
         forall resp,
           goto_loop (recrawl_visit w i) (max_retries - 1) 0 None = inl resp ->
           detect_block cfg (loaded (recrawl_visit w i)) resp = true ->
           has_error_marker result = true /\
           result !! "ERROR" = Some (CStr "재수집 실패: 차단 감지됨")).
Proof.
  intros Hurl Hidxcol Hbs Hall. unfold _recrawl_error_urls.
  destruct (Nat.eqb_spec (length (rows error_df)) 0) as [Hz|Hnz].
  { destruct (rows error_df) as [|r rs]; [|discriminate].
    exists []. repeat split. intros i row H. by rewrite lookup_nil in H. }
  rewrite Hurl, Hidxcol. cbn [negb andb].
  rewrite (proj2 (Nat.eqb_neq _ _)) by lia.
  destruct (recrawl_batches_all env cfg w error_df batch_size
              (length (rows error_df)) 0 Hbs ltac:(lia) Hall)
    as (rs & Hrun & Hlen & Hrs).
  rewrite drop_0 in *. exists rs. split; [exact Hrun|]. split; [exact Hlen|].
  intros i row Hrow. specialize (Hrs i row Hrow). rewrite Nat.add_0_l in Hrs.
  destruct (rs !! i) as [result|] eqn:Hres.
  2:{ apply lookup_ge_None in Hres. apply lookup_lt_Some in Hrow. lia. }
  exists result. split; [done|]. split; [done|].
  intros Hsetup resp Hloop Hblock.
  unfold recrawl_record, recrawl_try in Hrs. rewrite Hsetup, Hloop, Hblock in Hrs.
  unfold recrawl_failed in Hrs.
  destruct (select_rows _ _) as [|r0 rs0]; [discriminate|].
  injection Hrs as ->. unfold has_error_marker.
  rewrite lookup_insert_eq. by split.
Qed.



(** *** The whole validation *)

Lemma identify_columns (df : DataFrame) :
  rows (_identify_error_records df) <> [] ->
  columns (_identify_error_records df) = columns df.
Proof.
  unfold _identify_error_records. destruct (error_conditions df); simpl.
  - intros H. by destruct H.
  - done.
Qed.

(** X11: a validation that reads a store with URL and ORIGINAL_INDEX columns
    succeeds for any positive batch size, provided the error rows have
    non-null indexes; the store and its error rows are taken as
    [pd.read_excel] reads them.  It re-drives exactly the URLs of the error
    rows, in store order.  It writes the plain validated name when there is
    no error row and the dated validated name otherwise, and the frame
    written there has the columns of the store, as many rows, and in each
    position a row with the ORIGINAL_INDEX the store had there: validation
    neither drops nor adds nor reorders records. *)
Theorem validation_keeps_every_record (env : environment)
    (cfg : selectors_config) (w : web) (fs : filesystem)
    (result_file : string) (batch_size : nat) (df : DataFrame) :
  read_excel env fs result_file = Some df ->
  has_column df "URL" = true ->
  has_column df "ORIGINAL_INDEX" = true ->
  (0 < batch_size)%nat ->
  (forall row, row ∈ rows df -> is_error_record df row -> indexed row) ->
  let v := validate_and_recrawl env cfg w fs result_file batch_size in
  let error_rows := filter (is_error_record df) (rows df) in
  let written :=
    match error_rows with
    | [] => validated_path result_file
    | _ :: _ => validated_today_path env result_file
    end in
  succeeded v = true /\
  recrawled v = map (fun r => at_col r "URL") error_rows /\
  exists df',
    files_after v !! resolve env written = Some (DocFrame df') /\
    columns df' = columns df /\
    length (rows df') = length (rows df) /\
    forall i row, rows df !! i = Some row ->
      exists row',
        rows df' !! i = Some row' /\
        at_col row' "ORIGINAL_INDEX" = at_col row "ORIGINAL_INDEX".
Proof.
  intros Hread Hurl Hidx Hbs Hall. cbn zeta. unfold validate_and_recrawl.
  rewrite (ValidateFacts.read_excel_exists _ _ _ _ Hread), Hread.
  cbn [negb].
  fold (backup_path result_file) (validated_path result_file)
       (validated_today_path env result_file).
  pose proof (IdentifyFacts.identify_rows df) as Hrows.
  pose proof (identify_columns df) as Hcols.
  destruct (filter (is_error_record df) (rows df)) as [|e es] eqn:Hf.
  - rewrite Hrows. simpl. split; [done|]. split; [done|].
    exists df. split; [unfold to_excel; by rewrite lookup_insert_eq|].
    split; [done|]. split; [done|]. intros i row Hrow. by exists row.
  - rewrite Hrows. cbn [length Nat.eqb]. rewrite <- Hrows.
    assert (Hc : columns (_identify_error_records df) = columns df)
      by (apply Hcols; by rewrite Hrows).
    destruct (recrawl_one_per_record env cfg w (_identify_error_records df)
                batch_size) as (results & Hrun & _).
    + unfold has_column in *. by rewrite Hc.
    + unfold has_column in *. by rewrite Hc.
    + exact Hbs.
    + intros row Hrow. rewrite Hrows, <- Hf in Hrow.
      apply list_elem_of_filter in Hrow as [Herr Hin]. by apply Hall.
    + rewrite Hrun.
      destruct (MergeFacts.update_dataframe_total results df Hidx) as [df' Hupd].
      rewrite Hupd. cbn [succeeded recrawled files_after].
      split; [done|]. split; [by rewrite Hrows|].
      exists df'. split; [unfold to_excel; by rewrite lookup_insert_eq|].
      destruct (merge_shape _ _ _ Hupd) as (Hc' & Hl' & Hr').
      split; [done|]. split; [done|].
      intros i row Hrow. destruct (Hr' i row Hrow) as (row' & H1 & H2 & _).
      by exists row'.
Qed.

Lemma validation_keeps_every_record_witness :
  let result_file :=
    "/home/crawler/coupang-crawler-project/RAW/2025-04-25_coupang_results.xlsx" in
  let v := validate_and_recrawl sample_env ∅ mixed_web failed_files result_file 5 in
  let df := read_frame twice_failed_store in
  let error_rows := filter (is_error_record df) (rows df) in
  succeeded v = true /\
  recrawled v = map (fun r => at_col r "URL") error_rows /\
  exists df',
    files_after v
      !! resolve sample_env
           match error_rows with
           | [] => validated_path result_file
           | _ :: _ => validated_today_path sample_env result_file
           end = Some (DocFrame df') /\
    length (rows df') = length (rows df).
Proof.
  cbn zeta.
  destruct (validation_keeps_every_record sample_env ∅ mixed_web failed_files
              "/home/crawler/coupang-crawler-project/RAW/2025-04-25_coupang_results.xlsx"
              5 (read_frame twice_failed_store))
    as (Hok & Hurls & df' & Hread & _ & Hlen & _).
  - vm_compute; reflexivity.
  - vm_compute; reflexivity.
  - vm_compute; reflexivity.
  - lia.
  - intros row H _. apply list_elem_of_In in H. simpl in H.
    destruct H as [<-|[<-|[]]]; vm_compute; reflexivity.
  - split; [exact Hok|]. split; [exact Hurls|].
    exists df'. split; [exact Hread|exact Hlen].
Defined.

(** *** A store as it is read *)

Lemma read_cell_not_na (c : cell) : read_cell c <> CStr "NA".
Proof.
  destruct c as [| |n|s]; simpl; try discriminate.
  destruct (bool_decide (s ∈ na_values)) eqn:H; [discriminate|].
  intros [= ->]. vm_compute in H. discriminate.
Qed.

Lemma filter_fmap_iff {A B} (f : A -> B) (P Q : B -> Prop)
    `{!forall x, Decision (P x)} `{!forall x, Decision (Q x)} (l : list A) :
  (forall x, P (f x) <-> Q (f x)) ->
  filter P (f <$> l) = filter Q (f <$> l).
Proof.
  intros Hiff. induction l as [|a l IH]; [done|].
  rewrite fmap_cons, !filter_cons, IH.
  destruct (decide (P (f a))) as [HP|HP], (decide (Q (f a))) as [HQ|HQ];
    try done; exfalso; apply Hiff in HP || apply Hiff in HQ; done.
Qed.

(** X12: on a store as [pd.read_excel] gives it, the three sentinel tests
    of the error identification never fire, because a cell that held "NA"
    is read as a missing value: the error records of a store that was read
    are exactly its rows whose ERROR cell is set, in store order.  A row
    whose price is "NA" in the workbook and whose ERROR is empty is not an
    error record. *)
Theorem sentinel_tests_idle_on_read_store (df : DataFrame) :
  rows (_identify_error_records (read_frame df))
  = filter (fun row => "ERROR" ∈ columns df /\
                       notna (at_col row "ERROR") = true)
           (rows (read_frame df)).
Proof.
  rewrite IdentifyFacts.identify_rows. simpl.
  apply filter_fmap_iff. intros r. unfold is_error_record. simpl.
  rewrite !ValidateFacts.at_col_read_row.
  pose proof (read_cell_not_na (at_col r "PRICE")).
  pose proof (read_cell_not_na (at_col r "ORIGIN_PRICE")).
  pose proof (read_cell_not_na (at_col r "COUPANG_PROD_NAME")).
  tauto.
Qed.



End ValidatorProps.
